(** * PMSM fault diagnosis: the ingestion, caching and reporting pipeline

    A shallow embedding of [data_generator.py] (corpus loader, sample
    synthesizer, appender loop) and of [dashboard.py] (cached query layer,
    live feed, report compiler), and the properties of the design
    specification checked against it.

    Conventions of the embedding:
    - a Python [dict] whose iteration order matters ([data_dict]) is an
      association list with distinct keys; a dict used as a record (a
      Firestore document, a DataFrame row) is a [gmap string _];
    - a Python exception is a value of [exn], a call that may raise returns
      a [result];
    - a Python [float] is an exact rational or NaN: rounding error of the
      binary representation is not modelled;
    - [random] is a finite distribution: a list of weighted outcomes;
    - the Firestore service and the clock are explicit state and inputs. *)

From Stdlib Require Import ZArith QArith Qcanon Qround List String Ascii Bool Lia DecimalString.
From stdpp Require Import base gmap strings list sorting.

Set Warnings "-clear-no-such-hyp".

Open Scope string_scope.
Open Scope Z_scope.

(** ** Python values *)

Module Py.

(** The exceptions the two scripts can meet. *)
Inductive exn :=
| ValueError (msg : string)
| KeyError (key : string)
| IndexError (msg : string)
| TypeError (msg : string)
| ServiceError (msg : string)   (* any error raised by the Firestore client *)
| KeyboardInterrupt.

Inductive result (A : Type) :=
| Ok (a : A)
| Raise (e : exn).
Arguments Ok {A} a.
Arguments Raise {A} e.

Definition bind {A B} (r : result A) (k : A -> result B) : result B :=
  match r with
  | Ok a => k a
  | Raise e => Raise e
  end.

Definition is_ok {A} (r : result A) : bool :=
  match r with Ok _ => true | Raise _ => false end.

(** [except Exception] catches everything but [KeyboardInterrupt]
    (which derives from [BaseException]). *)
Definition is_Exception (e : exn) : bool :=
  match e with KeyboardInterrupt => false | _ => true end.

(** [str(e)] of an exception; a [KeyError] shows the repr of its key. *)
Definition str_exn (e : exn) : string :=
  match e with
  | ValueError m | IndexError m | TypeError m | ServiceError m => m
  | KeyError k => "'" ++ k ++ "'"
  | KeyboardInterrupt => ""
  end.

(** A float: an exact rational, or NaN (the missing value of pandas). *)
Inductive pyfloat :=
| FNum (q : Qc)
| FNaN.

#[global] Instance pyfloat_eq_dec : EqDecision pyfloat.
Proof. solve_decision. Defined.

Definition Z2Qc (z : Z) : Qc := Q2Qc (inject_Z z).

Definition fmul (x y : pyfloat) : pyfloat :=
  match x, y with
  | FNum a, FNum b => FNum (a * b)%Qc
  | _, _ => FNaN
  end.

(** Division by a non-zero constant (the only divisions of the scripts). *)
Definition fdiv (x y : pyfloat) : pyfloat :=
  match x, y with
  | FNum a, FNum b => FNum (a / b)%Qc
  | _, _ => FNaN
  end.

(** [str(n)] of an int. *)
Definition str_int (z : Z) : string := NilZero.string_of_int (Z.to_int z).

(** Two digits, zero padded: [%H], [%M], [%S], and the decimals of [.2f]. *)
Definition pad2 (n : Z) : string :=
  if n <? 10 then "0" ++ str_int n else str_int n.

(** Round to the nearest integer, ties to even. *)
Definition round_half_even (q : Q) : Z :=
  let f := Qfloor q in
  match Qcompare (q - inject_Z f) (1 # 2) with
  | Lt => f
  | Gt => f + 1
  | Eq => if Z.even f then f else f + 1
  end.

(** The number of hundredths nearest to [q]. *)
Definition hundredths (q : Qc) : Z := round_half_even (this q * 100).

(** The format specification [.2f]. *)
Definition format_2f (x : pyfloat) : string :=
  match x with
  | FNaN => "nan"
  | FNum q =>
      let a := Z.abs (hundredths q) in
      (if bool_decide (q < 0)%Qc then "-" else "")
        ++ str_int (a / 100) ++ "." ++ pad2 (a mod 100)
  end.

(** [Series.round(2)]: [rint(x * 100) / 100]. *)
Definition round2 (x : pyfloat) : pyfloat :=
  match x with
  | FNaN => FNaN
  | FNum q => FNum (Z2Qc (hundredths q) / Z2Qc 100)%Qc
  end.

(** [str(x)] of a float with at most two decimals, which is all
    [astype(str)] gets after [round(2)]: the shortest decimal that reads
    back, with at least one decimal. *)
Definition str_float (x : pyfloat) : string :=
  match x with
  | FNaN => "nan"
  | FNum q =>
      let a := Z.abs (hundredths q) in
      let frac := a mod 100 in
      (if bool_decide (q < 0)%Qc then "-" else "")
        ++ str_int (a / 100) ++ "."
        ++ (if frac mod 10 =? 0 then str_int (frac / 10) else pad2 frac)
  end.

(** An insertion-ordered dict as an association list with distinct keys. *)
Definition dict (V : Type) := list (string * V).

Definition keys {V} (d : dict V) : list string := map fst d.

Fixpoint getitem {V} (d : dict V) (k : string) : result V :=
  match d with
  | [] => Raise (KeyError k)
  | (k', v) :: d' => if decide (k' = k) then Ok v else getitem d' k
  end.

(** [d[k] = v]: replaces in place, or appends a new key. *)
Fixpoint setitem {V} (d : dict V) (k : string) (v : V) : dict V :=
  match d with
  | [] => [(k, v)]
  | (k', v') :: d' =>
      if decide (k' = k) then (k, v) :: d' else (k', v') :: setitem d' k v
  end.

(** [s * n] *)
Fixpoint str_repeat (s : string) (n : nat) : string :=
  match n with
  | O => ""
  | S n' => s ++ str_repeat s n'
  end.

(** [s.center(width)] of an ASCII text: the padding is split in two, and
    the odd space goes to the left when the width is odd too. *)
Definition str_center (s : string) (width : Z) : string :=
  let n := Z.of_nat (String.length s) in
  if width <=? n then s
  else
    let marg := width - n in
    let left := marg / 2 + (if Z.odd marg && Z.odd width then 1 else 0) in
    str_repeat " " (Z.to_nat left) ++ s ++ str_repeat " " (Z.to_nat (marg - left)).

End Py.
Import Py.

#[global] Instance result_ret : MRet result := @Ok.
#[global] Instance result_bind : MBind result := fun A B k r => Py.bind r k.

(** ** The Firestore service

    An append-only document store: named collections of documents, a write
    that lets the server fill in the time, and a read in time order. The
    service is outside the repository; this is its interface as the two
    scripts use it. *)

Module Firestore.

(** A [datetime]: microseconds since the epoch (UTC), and whether it
    carries a [tzinfo]. *)
Record datetime := { epoch_us : Z; tz_aware : bool }.

Inductive value :=
| VNull
| VFloat (f : pyfloat)
| VStr (s : string)
| VTime (t : datetime)
| VMap (m : list (string * pyfloat)).

(** What a client hands to a write: a plain value, or the sentinel
    [firestore.SERVER_TIMESTAMP] that asks the server for its clock. *)
Inductive write_value :=
| WFloat (f : pyfloat)
| WStr (s : string)
| SERVER_TIMESTAMP.

#[global] Instance datetime_eq_dec : EqDecision datetime.
Proof. solve_decision. Defined.
#[global] Instance value_eq_dec : EqDecision value.
Proof. solve_decision. Defined.
#[global] Instance write_value_eq_dec : EqDecision write_value.
Proof. solve_decision. Defined.

Abbreviation document := (gmap string value).

Record db := { collections : gmap string (list document) }.

Definition docs_of (s : db) (name : string) : list document :=
  default [] (collections s !! name).

(** The server resolves the sentinel to its own clock when it commits. *)
Definition commit_value (server_now : Z) (w : write_value) : value :=
  match w with
  | WFloat f => VFloat f
  | WStr s => VStr s
  | SERVER_TIMESTAMP => VTime {| epoch_us := server_now; tz_aware := true |}
  end.

(** [db.collection(name).add(data)], accepted at server time [server_now]. *)
Definition add (name : string) (data : gmap string write_value)
    (server_now : Z) (s : db) : db :=
  {| collections :=
       <[name := (docs_of s name ++ [commit_value server_now <$> data])%list]>
         (collections s) |}.

Inductive direction := ASCENDING | DESCENDING.

Record query :=
  { q_collection : string; q_order_by : string; q_direction : direction }.

#[global] Instance direction_eq_dec : EqDecision direction.
Proof. solve_decision. Defined.
#[global] Instance query_eq_dec : EqDecision query.
Proof. solve_decision. Defined.

(** The order of values of one field: by type first (null, NaN, numbers,
    timestamps, strings, maps), then by value for numbers and timestamps;
    strings and maps are left in insertion order. *)
Definition order_key (v : value) : Z * Qc :=
  match v with
  | VNull => (0, 0%Qc)
  | VFloat FNaN => (1, 0%Qc)
  | VFloat (FNum q) => (2, q)
  | VTime t => (3, Z2Qc (epoch_us t))
  | VStr _ => (4, 0%Qc)
  | VMap _ => (5, 0%Qc)
  end.

Definition key_le (a b : Z * Qc) : Prop :=
  a.1 < b.1 \/ (a.1 = b.1 /\ (a.2 <= b.2)%Qc).

#[global] Instance key_le_dec a b : Decision (key_le a b).
Proof. unfold key_le. apply _. Defined.

Definition field_key (field : string) (d : document) : Z * Qc :=
  order_key (default VNull (d !! field)).

(** [a] may come before [b] in the direction asked for. *)
Definition before (field : string) (dir : direction) (a b : document) : Prop :=
  match dir with
  | ASCENDING => key_le (field_key field a) (field_key field b)
  | DESCENDING => key_le (field_key field b) (field_key field a)
  end.

#[global] Instance before_dec field dir a b : Decision (before field dir a b).
Proof. destruct dir; simpl; apply _. Defined.

(** [query.stream()]: the documents that have the field, in its order. *)
Definition stream (q : query) (s : db) : list document :=
  merge_sort (before (q_order_by q) (q_direction q))
    (filter (fun d => is_Some (d !! q_order_by q)) (docs_of s (q_collection q))).

End Firestore.
Import Firestore.

(** ** The [random] module: finite distributions *)

Module Random.

(** A computation that draws random numbers and may raise: the list of
    its outcomes, each with its probability. *)
Definition M (A : Type) : Type := list (Qc * result A).

Definition ret {A} (a : A) : M A := [(1%Qc, Ok a)].

Definition scale {A} (w : Qc) (m : M A) : M A :=
  map (fun o => ((w * o.1)%Qc, o.2)) m.

Definition bind {A B} (m : M A) (k : A -> M B) : M B :=
  flat_map (fun o =>
              match o.2 with
              | Ok a => scale o.1 (k a)
              | Raise e => [(o.1, Raise e)]
              end) m.

Definition lift {A} (r : result A) : M A := [(1%Qc, r)].

(** [n] equally likely numbers [0 .. n-1]. *)
Definition randbelow (n : nat) : M nat :=
  map (fun k => ((1 / Z2Qc (Z.of_nat n))%Qc, Ok k)) (seq 0 n).

(** [random.choice(seq)]: [seq[randbelow(len(seq))]]. *)
Definition choice (l : list string) : M string :=
  match l with
  | [] => lift (Raise (IndexError "Cannot choose from an empty sequence"))
  | _ => bind (randbelow (length l))
           (fun i => lift (match l !! i with
                           | Some x => Ok x
                           | None => Raise (IndexError "list index out of range")
                           end))
  end.

(** [random.randint(a, b)]: [a + randbelow(b - a + 1)], both ends included. *)
Definition randint (a b : Z) : M Z :=
  if decide (0 < b - a + 1)
  then bind (randbelow (Z.to_nat (b - a + 1)))
         (fun k => ret (a + Z.of_nat k))
  else lift (Raise (ValueError "empty range for randrange()")).

(** The probability of an event: the total weight of its outcomes. *)
Definition prob {A} (P : result A -> bool) (m : M A) : Qc :=
  foldr (fun o acc => if P o.2 then (o.1 + acc)%Qc else acc) 0%Qc m.

Definition support {A} (m : M A) : list (result A) := map snd m.

(** One run of [m]: the outcome the random source's state [n] selects. *)
Definition pick {A} (n : nat) (m : M A) : result A :=
  match support m !! (n mod length m)%nat with
  | Some r => r
  | None => Raise (ValueError "no outcome")
  end.

End Random.

#[global] Instance random_ret : MRet Random.M := @Random.ret.
#[global] Instance random_bind : MBind Random.M := fun A B k m => Random.bind m k.

(** ** data_generator.py *)

Module DataGenerator.

Definition ASSETS_DIR : string := ".".

Definition CSV_FILES : list string :=
  [ "NORMAL_OP.csv"; "HB1_OVER_TEMP.csv"; "HB2_HIGH_SIDE_SC.csv";
    "HB2_HIGH_SIDE_OC.csv"; "HB3_OVER_TEMP.csv"; "HB1_LOW_SIDE_SC.csv";
    "HB3_LOW_SIDE_OC.csv"; "HB12_OVER_TEMP.csv"; "HB3_HIGH_SIDE_SC.csv" ].

Definition FEATURE_COLS : list string :=
  [ "Ia"; "Ib"; "VDC"; "IDC"; "T1"; "T2"; "T3"; "VD" ].

(** A cell of a table read by [pd.read_csv]: an integer or float column
    holds numbers, an object column holds the text of the file. *)
Inductive cell :=
| CInt (z : Z)
| CFloat (f : pyfloat)
| CStr (s : string).

(** A row ([df.iloc[i]], a Series indexed by column name) and a table. *)
Abbreviation row := (gmap string cell).
Definition DataFrame : Type := list row.

Abbreviation sample := (gmap string write_value).

Definition len (df : DataFrame) : Z := Z.of_nat (length df).

(** [df.iloc[i]]: a negative position counts from the end. *)
Definition iloc (df : DataFrame) (i : Z) : result row :=
  let pos := if decide (i < 0) then len df + i else i in
  match (if decide (0 <= pos) then df !! Z.to_nat pos else None) with
  | Some r => Ok r
  | None => Raise (IndexError "single positional indexer is out-of-bounds")
  end.

(** [os.path.join(ASSETS_DIR, csv_file)] *)
Definition path_join (dir file : string) : string := dir ++ "/" ++ file.

Definition nl : string := String (ascii_of_nat 10) "".

Section WithFloatParser.

(** The builtin [float] applied to a [str]: the float the text denotes,
    if it denotes one. *)
Variable float_of_str : string -> option pyfloat.

Definition py_float (c : cell) : result pyfloat :=
  match c with
  | CInt z => Ok (FNum (Z2Qc z))
  | CFloat f => Ok f
  | CStr s =>
      match float_of_str s with
      | Some f => Ok f
      | None => Raise (ValueError ("could not convert string to float: '" ++ s ++ "'"))
      end
  end.

(** [load_csv_files]: [read_csv] is the file system seen through
    [pd.read_csv]. Returns the lines printed and the dict. *)
Fixpoint load_from (read_csv : string -> result DataFrame)
    (files : list string) (data_dict : dict DataFrame) (out : list string)
  : list string * result (dict DataFrame) :=
  match files with
  | [] => (out, Ok data_dict)
  | csv_file :: files' =>
      let file_path := path_join ASSETS_DIR csv_file in
      match read_csv file_path with
      | Ok df =>
          let line := "Loaded " ++ csv_file ++ ": " ++ str_int (len df) ++ " rows" in
          load_from read_csv files' (setitem data_dict csv_file df)
            (out ++ [line])%list
      | Raise e =>
          if is_Exception e
          then let line := "Error loading " ++ csv_file ++ ": " ++ str_exn e in
               load_from read_csv files' data_dict (out ++ [line])%list
          else (out, Raise e)
      end
  end.

Definition load_csv_files (read_csv : string -> result DataFrame)
  : list string * result (dict DataFrame) :=
  load_from read_csv CSV_FILES [] [].

(** [{col: float(row[col]) for col in cols if col in row}] *)
Fixpoint extract_features (cols : list string) (r : row) : result sample :=
  match cols with
  | [] => Ok ∅
  | col :: cols' =>
      match r !! col with
      | Some c =>
          f ← py_float c;
          rest ← extract_features cols' r;
          mret (<[col := WFloat f]> rest)
      | None => extract_features cols' r
      end
  end.

(** Lines 60-67: the sample of one row of one file. *)
Definition sample_of_row (csv_file : string) (r : row) : result sample :=
  sample ← extract_features FEATURE_COLS r;
  let sample := <["source_file" := WStr csv_file]> sample in
  let sample := <["timestamp" := SERVER_TIMESTAMP]> sample in
  mret sample.

Definition get_random_sample (data_dict : dict DataFrame) : Random.M sample :=
  csv_file ← Random.choice (keys data_dict);
  df ← Random.lift (getitem data_dict csv_file);
  random_idx ← Random.randint 0 (len df - 1);
  row ← Random.lift (iloc df random_idx);
  Random.lift (sample_of_row csv_file row).

(** *** push_data

    The loop of lines 75-88 as a machine that executes one statement
    per event. The environment decides, at each statement, whether
    Ctrl+C arrives instead, and supplies what the statement reads from
    outside: the state of the random source, the reply of the store, the
    wall clock. A write is atomic: Ctrl+C during [add] either comes before
    the server commits (the signal at [AtAdd]) or after it (the signal at
    [AtIncr]). *)

Inductive pc :=
| AtSample                      (* line 78 *)
| AtAdd (smp : sample)          (* line 81 *)
| AtIncr (smp : sample)         (* line 82: the store has the record *)
| AtPrintPushed (smp : sample)  (* line 83 *)
| AtPrintFeatures (smp : sample)(* line 84 *)
| AtSleep                       (* line 88 *)
| Exited.                       (* after either handler *)

Record state :=
  { at_pc : pc;
    count : Z;
    store : db;
    stdout : list string;
    slept : Z }.

Record world :=
  { draw : nat;                 (* state of the random source *)
    store_reply : result Z;     (* accepted at this server time, or an error *)
    clock : Z * Z * Z }.        (* hour, minute, second of [datetime.now()] *)

Inductive event :=
| SIGINT
| Run (w : world).

Definition print (line : string) (st : state) : state :=
  {| at_pc := at_pc st; count := count st; store := store st;
     stdout := (stdout st ++ [line])%list; slept := slept st |}.

Definition goto (p : pc) (st : state) : state :=
  {| at_pc := p; count := count st; store := store st;
     stdout := stdout st; slept := slept st |}.

(** [except KeyboardInterrupt] (line 90) *)
Definition on_interrupt (st : state) : state :=
  goto Exited
    (print (nl ++ "✓ Data stream stopped. Total samples sent: " ++ str_int (count st)) st).

(** [except Exception as e] (line 92) *)
Definition on_exception (e : exn) (st : state) : state :=
  goto Exited (print ("✗ Error: " ++ str_exn e) st).

Definition raise (e : exn) (st : state) : state :=
  if is_Exception e then on_exception e st else on_interrupt st.

Definition strftime_HMS (t : Z * Z * Z) : string :=
  pad2 t.1.1 ++ ":" ++ pad2 t.1.2 ++ ":" ++ pad2 t.2.

(** [sample[k]] in an f-string without a format specification. *)
Definition fmt_str (smp : sample) (k : string) : result string :=
  match smp !! k with
  | Some (WStr s) => Ok s
  | Some (WFloat f) => Ok (str_float f)
  | Some SERVER_TIMESTAMP =>
      Ok "Sentinel: Value used to set a document field to the server timestamp."
  | None => Raise (KeyError k)
  end.

(** [sample[k]:.2f] *)
Definition fmt_2f (smp : sample) (k : string) : result string :=
  match smp !! k with
  | Some (WFloat f) => Ok (format_2f f)
  | Some (WStr _) =>
      Raise (ValueError "Unknown format code 'f' for object of type 'str'")
  | Some SERVER_TIMESTAMP =>
      Raise (TypeError "unsupported format string passed to Sentinel.__format__")
  | None => Raise (KeyError k)
  end.

Definition line_pushed (now : Z * Z * Z) (n : Z) (smp : sample) : result string :=
  src ← fmt_str smp "source_file";
  mret ("[" ++ strftime_HMS now ++ "] #" ++ str_int n
          ++ " Pushed sample from " ++ src).

Definition line_features (smp : sample) : result string :=
  ia ← fmt_2f smp "Ia";
  ib ← fmt_2f smp "Ib";
  vdc ← fmt_2f smp "VDC";
  mret ("   Features: Ia=" ++ ia ++ ", Ib=" ++ ib ++ ", VDC=" ++ vdc).

Definition exec (data_dict : dict DataFrame) (interval : Z)
    (w : world) (st : state) : state :=
  match at_pc st with
  | AtSample =>
      match Random.pick (draw w) (get_random_sample data_dict) with
      | Ok smp => goto (AtAdd smp) st
      | Raise e => raise e st
      end
  | AtAdd smp =>
      match store_reply w with
      | Ok server_now =>
          {| at_pc := AtIncr smp; count := count st;
             store := add "raw_readings" smp server_now (store st);
             stdout := stdout st; slept := slept st |}
      | Raise e => raise e st
      end
  | AtIncr smp =>
      {| at_pc := AtPrintPushed smp; count := count st + 1;
         store := store st; stdout := stdout st; slept := slept st |}
  | AtPrintPushed smp =>
      match line_pushed (clock w) (count st) smp with
      | Ok line => goto (AtPrintFeatures smp) (print line st)
      | Raise e => raise e st
      end
  | AtPrintFeatures smp =>
      match line_features smp with
      | Ok line => goto AtSleep (print line st)
      | Raise e => raise e st
      end
  | AtSleep =>
      {| at_pc := AtSample; count := count st; store := store st;
         stdout := stdout st; slept := slept st + interval |}
  | Exited => st
  end.

Definition step (data_dict : dict DataFrame) (interval : Z)
    (st : state) (ev : event) : state :=
  match at_pc st, ev with
  | Exited, _ => st
  | _, SIGINT => on_interrupt st
  | _, Run w => exec data_dict interval w st
  end.

(** The state after [count = 0] (line 75), on a given store. *)
Definition init (s : db) : state :=
  {| at_pc := AtSample; count := 0; store := s; stdout := []; slept := 0 |}.

Definition push_data (data_dict : dict DataFrame) (interval : Z)
    (s : db) (events : list event) : state :=
  fold_left (step data_dict interval) events (init s).

(** The records the loop has got into the store so far. *)
Definition submitted (s0 : db) (st : state) : Z :=
  Z.of_nat (length (docs_of (store st) "raw_readings"))
  - Z.of_nat (length (docs_of s0 "raw_readings")).

(** Lines 71-72, printed before the loop. [interval / 60] is shown as
    [str_float] shows it, which is how Python does when the quotient has at
    most two decimals, as the 1.0 of the only call has. *)
Definition starting_lines (interval : Z) : list string :=
  [ nl ++ " Starting data stream (pushing every " ++ str_int interval ++ "s / "
       ++ str_float (FNum (Z2Qc interval / Z2Qc 60)%Qc) ++ " minute(s))...";
    "Press Ctrl+C to stop" ++ nl ].

(** The script run as a program (lines 95-110): what it prints and the
    store it leaves. Ctrl+C while the files are read is not caught. *)
Definition main (read_csv : string -> result DataFrame) (s : db)
    (events : list event) : list string * result db :=
  let out :=
    [ str_repeat "=" 70;
      str_center "PMSM FAULT DIAGNOSIS - DATA GENERATOR" 70;
      str_repeat "=" 70;
      nl ++ " Loading CSV files..." ] in
  match load_csv_files read_csv with
  | (lines, Ok data_dict) =>
      match data_dict with
      | [] =>
          let line := nl ++ " ERROR: No CSV files loaded. Check assets directory." in
          ((out ++ lines ++ [line])%list, Ok s)
      | _ =>
          let line := nl ++ " Successfully loaded " ++ str_int (Z.of_nat (length data_dict))
                         ++ " CSV files" in
          let st := push_data data_dict 60 s events in
          ((out ++ lines ++ [line] ++ starting_lines 60 ++ stdout st)%list,
           Ok (store st))
      end
  | (lines, Raise e) => ((out ++ lines)%list, Raise e)
  end.

End WithFloatParser.

End DataGenerator.

(** ** dashboard.py *)

Module Dashboard.

(** [pd.DataFrame(data)] of a list of dicts: one row per dict, one column
    per key met; a key a row lacks reads as missing there (NaN, NaT), and
    so does [VNull]. *)
Definition DataFrame : Type := list document.

Definition has_column (df : DataFrame) (c : string) : bool :=
  existsb (fun d => bool_decide (is_Some (d !! c))) df.

(** [df.empty]: no row, or no column. *)
Definition empty (df : DataFrame) : bool :=
  forallb (fun d => bool_decide (dom d = (∅ : gset string))) df.

(** [df[c]] *)
Definition column (df : DataFrame) (c : string) : result (list (option value)) :=
  if has_column df c then Ok (map (fun d => d !! c) df) else Raise (KeyError c).

(** The float a cell of a numeric column holds; text (an object column)
    does not take part in arithmetic. *)
Definition as_float (v : option value) : result pyfloat :=
  match v with
  | None | Some VNull => Ok FNaN
  | Some (VFloat f) => Ok f
  | Some _ => Raise (TypeError "unsupported operand type(s)")
  end.

Fixpoint floats (col : list (option value)) : result (list pyfloat) :=
  match col with
  | [] => Ok []
  | v :: col' => f ← as_float v; fs ← floats col'; mret (f :: fs)
  end.

(** [Series.mean()], missing values skipped. *)
Definition present (fs : list pyfloat) : list Qc :=
  omap (fun f => match f with FNum q => Some q | FNaN => None end) fs.

Definition mean (fs : list pyfloat) : pyfloat :=
  match present fs with
  | [] => FNaN
  | qs => FNum (foldr Qcplus 0%Qc qs / Z2Qc (Z.of_nat (length qs)))%Qc
  end.

(** The instant of a cell of a datetime column; [None] is NaT. *)
Definition instant (v : option value) : option Z :=
  match v with
  | Some (VTime t) => Some (epoch_us t)
  | _ => None
  end.

(** [Series.max()] and [Series.min()] of a datetime column, NaT skipped. *)
Definition ts_fold (pick : Z -> Z -> Z) (col : list (option Z)) : option Z :=
  foldr (fun x acc =>
           match x, acc with
           | Some a, Some b => Some (pick a b)
           | Some a, None => Some a
           | None, _ => acc
           end) None col.

Definition ts_max := ts_fold Z.max.
Definition ts_min := ts_fold Z.min.

(** [(a - b).total_seconds()]: a Timedelta in seconds; NaT gives NaN. *)
Definition total_seconds_between (a b : option Z) : pyfloat :=
  match a, b with
  | Some x, Some y => FNum (Z2Qc (x - y) / Z2Qc 1000000)%Qc
  | _, _ => FNaN
  end.

(** [value_counts()] of a column of labels: each label met with the
    number of rows that carry it, most frequent first; equal counts stay
    in order of first appearance (pandas fixes no order for them). *)
Fixpoint labels_of (col : list (option value)) : result (list string) :=
  match col with
  | [] => Ok []
  | (None | Some VNull) :: col' => labels_of col'
  | Some (VStr s) :: col' => ls ← labels_of col'; mret (s :: ls)
  | Some _ :: col' => Raise (TypeError "label is not text")
  end.

Fixpoint tally (ls : list string) (acc : dict Z) : dict Z :=
  match ls with
  | [] => acc
  | l :: ls' =>
      let n := match getitem acc l with Ok n => n | Raise _ => 0 end in
      tally ls' (setitem acc l (n + 1))
  end.

Fixpoint insert_desc (x : string * Z) (sorted : list (string * Z)) : list (string * Z) :=
  match sorted with
  | [] => [x]
  | y :: rest => if decide (y.2 < x.2) then x :: y :: rest else y :: insert_desc x rest
  end.

Definition sort_desc (l : list (string * Z)) : list (string * Z) :=
  fold_left (fun acc x => insert_desc x acc) l [].

Definition value_counts (col : list (option value)) : result (list (string * Z)) :=
  ls ← labels_of col; mret (sort_desc (tally ls [])).

(** The content of a reportlab story. *)
Inductive table_cell := TStr (s : string) | TInt (n : Z).

Inductive flowable :=
| Paragraph (text style : string)
| Spacer (width height : Z)
| Table (data : list (list table_cell)).

Record wall_clock :=
  { year : Z; month : Z; day : Z; hour : Z; minute : Z; second : Z }.

(** [strftime('%Y-%m-%d %H:%M:%S')] *)
Definition strftime (t : wall_clock) : string :=
  str_int (year t) ++ "-" ++ pad2 (month t) ++ "-" ++ pad2 (day t) ++ " "
    ++ pad2 (hour t) ++ ":" ++ pad2 (minute t) ++ ":" ++ pad2 (second t).

Definition ttl : Qc := Z2Qc 10.

Definition verdicts_query : query :=
  {| q_collection := "verdicts"; q_order_by := "timestamp";
     q_direction := DESCENDING |}.

(** Lines 36-40: a datetime loses its [tzinfo]; on anything else
    [replace(tzinfo=None)] raises and the bare [except] passes. *)
Definition drop_tzinfo (d : document) : document :=
  match d !! "timestamp" with
  | Some (VTime t) =>
      <["timestamp" := VTime {| epoch_us := epoch_us t; tz_aware := false |}]> d
  | _ => d
  end.

Record cache_entry := { cached : DataFrame; captured_at : Qc }.

(** What [st.cache_data] keeps for [fetch_verdicts], and the queries the
    process has sent to the store. *)
Record session := { cache : option cache_entry; issued : list query }.

Inductive view :=
| Warning (msg : string)
| Dataframe (rows : list document).

Section WithDatetimeParser.

(** [pd.to_datetime] on a value that is neither a datetime nor
    missing (a number, a text, a map): what pandas makes of it. *)
Variable parse_datetime : value -> result datetime.

Definition to_datetime (v : option value) : result value :=
  match v with
  | None | Some VNull | Some (VFloat FNaN) => Ok VNull
  | Some (VTime t) => Ok (VTime t)
  | Some v => t ← parse_datetime v; mret (VTime t)
  end.

(** [df["timestamp"] = pd.to_datetime(df["timestamp"])] *)
Fixpoint convert_rows (df : DataFrame) : result DataFrame :=
  match df with
  | [] => Ok []
  | d :: df' =>
      t ← to_datetime (d !! "timestamp");
      rest ← convert_rows df';
      mret (<["timestamp" := t]> d :: rest)
  end.

Definition set_timestamp_column (df : DataFrame) : result DataFrame :=
  _ ← column df "timestamp"; convert_rows df.

(** The body of [fetch_verdicts], without the cache. *)
Definition fetch_verdicts (s : db) : result DataFrame :=
  let docs := stream verdicts_query s in
  let data := map drop_tzinfo docs in
  let df : DataFrame := data in
  if negb (empty df) then set_timestamp_column df else Ok df.

(** [@st.cache_data(ttl=10)]: a result younger than [ttl] is returned
    as it is; otherwise the body runs, and its result, if it returns
    one, replaces the cache. An exception is not cached. *)
Definition cached_fetch_verdicts (now : Qc) (s : db) (ss : session)
  : result DataFrame * session :=
  let miss :=
    let issued' := (issued ss ++ [verdicts_query])%list in
    match fetch_verdicts s with
    | Ok df =>
        (Ok df, {| cache := Some {| cached := df; captured_at := now |};
                   issued := issued' |})
    | Raise e => (Raise e, {| cache := None; issued := issued' |})
    end in
  match cache ss with
  | Some e =>
      if decide (now - captured_at e < ttl)%Qc then (Ok (cached e), ss) else miss
  | None => miss
  end.

(** Tab 1, lines 100-106. *)
Definition live_columns : list string :=
  [ "timestamp"; "fault_label"; "location"; "description"; "confidence";
    "source_file" ].

Definition select (cols : list string) (df : DataFrame) : result DataFrame :=
  match List.find (fun c => negb (has_column df c)) cols with
  | Some c => Raise (KeyError c)
  | None => Ok (map (filter (fun kv => kv.1 ∈ cols)) df)
  end.

Definition percent (d : document) : result document :=
  c ← as_float (d !! "confidence");
  mret (<["confidence" := VStr (str_float (round2 (fmul c (FNum (Z2Qc 100)))) ++ "%")]> d).

Fixpoint percent_rows (df : DataFrame) : result DataFrame :=
  match df with
  | [] => Ok []
  | d :: df' => d' ← percent d; rest ← percent_rows df'; mret (d' :: rest)
  end.

Definition live_feed (df : DataFrame) : result view :=
  if empty df then Ok (Warning "No verdicts yet...")
  else
    live_df ← select live_columns df;
    let live_df := take 15 live_df in
    live_df ← percent_rows live_df;
    mret (Dataframe live_df).

(** [generate_pdf_report]: the story handed to [doc.build]. *)
Definition generate_pdf_report (now : wall_clock) (df : DataFrame)
  : result (list flowable) :=
  let story :=
    [ Paragraph "<b>PMSM Fault Diagnosis Report</b>" "Title";
      Spacer 1 12;
      Paragraph ("Generated: " ++ strftime now) "Normal";
      Spacer 1 12 ] in
  if empty df then
    Ok (story ++ [Paragraph "No data available." "Normal"])%list
  else
    let total := Z.of_nat (length df) in
    confidence ← column df "confidence";
    confidence ← floats confidence;
    let avg_conf := fmul (mean confidence) (FNum (Z2Qc 100)) in
    timestamp ← column df "timestamp";
    let timestamp := map instant timestamp in
    let uptime_hours :=
      fdiv (total_seconds_between (ts_max timestamp) (ts_min timestamp))
           (FNum (Z2Qc 3600)) in
    let summary :=
      [ Paragraph ("Total Samples Processed: " ++ str_int total) "Normal";
        Paragraph ("Average Confidence: " ++ format_2f avg_conf ++ "%") "Normal";
        Paragraph ("System Uptime: " ++ format_2f uptime_hours ++ " hours") "Normal";
        Spacer 1 12 ] in
    fault_label ← column df "fault_label";
    fault_counts ← value_counts fault_label;
    let data :=
      [TStr "Fault"; TStr "Count"]
        :: map (fun lc => [TStr lc.1; TInt lc.2]) fault_counts in
    mret (story ++ summary ++ [Table data; Spacer 1 12])%list.

(** A plotly bar chart: its title, the names of its two axes and the bars. *)
Record bar_chart :=
  { chart_title : string; x_name : string; y_name : string;
    bars : list (string * Z) }.

Inductive panel :=
| PanelWarning (msg : string)
| PanelChart (fig : bar_chart).

(** Tab 2, lines 113-124: the fault frequency chart. *)
Definition fault_frequency (df : DataFrame) : result panel :=
  if empty df then Ok (PanelWarning "No data to display yet.")
  else
    fault_label ← column df "fault_label";
    fault_counts ← value_counts fault_label;
    mret (PanelChart {| chart_title := "Fault Frequency"; x_name := "Fault Type";
                        y_name := "Count"; bars := fault_counts |}).

(** Tab 3, lines 148-156. *)
Definition fault_locations (df : DataFrame) : result panel :=
  if empty df then Ok (PanelWarning "No data to display yet.")
  else
    location ← column df "location";
    loc_counts ← value_counts location;
    mret (PanelChart {| chart_title := "Fault Occurrence by Location";
                        x_name := "Location"; y_name := "Count";
                        bars := loc_counts |}).

End WithDatetimeParser.

End Dashboard.

(** ** Inputs used in the examples *)

Module Examples.
Import DataGenerator Dashboard.

Definition q (n : Z) (d : positive) : Qc := Q2Qc (n # d).

(** A parser of text cells that accepts nothing, and a datetime parser
    that rejects everything: the examples never reach them. *)
Definition no_float (s : string) : option pyfloat := None.
Definition no_datetime (v : value) : result datetime :=
  Raise (ValueError "Unknown datetime string format").

Definition full_row : row :=
  <["Ia" := CFloat (FNum (q 3 2))]> (<["Ib" := CInt 2]> (<["VDC" := CInt 5]>
  (<["IDC" := CInt 1]> (<["T1" := CInt 40]> (<["T2" := CInt 41]>
  (<["T3" := CInt 42]> (<["VD" := CInt 12]> (<["FDD" := CInt 1]> ∅)))))))).

(** A row of a file that has only three of the eight channels. *)
Definition short_row : row :=
  <["Ia" := CInt 7]> (<["Ib" := CInt 8]> (<["VDC" := CInt 9]> ∅)).

(** The sample of [full_row] drawn from NORMAL_OP.csv. *)
Definition full_sample : sample :=
  <["timestamp" := SERVER_TIMESTAMP]> (<["source_file" := WStr "NORMAL_OP.csv"]>
  (<["Ia" := WFloat (FNum (q 3 2))]> (<["Ib" := WFloat (FNum (Z2Qc 2))]>
  (<["VDC" := WFloat (FNum (Z2Qc 5))]> (<["IDC" := WFloat (FNum (Z2Qc 1))]>
  (<["T1" := WFloat (FNum (Z2Qc 40))]> (<["T2" := WFloat (FNum (Z2Qc 41))]>
  (<["T3" := WFloat (FNum (Z2Qc 42))]> (<["VD" := WFloat (FNum (Z2Qc 12))]> ∅))))))))).

Definition corpus : dict DataGenerator.DataFrame :=
  [("NORMAL_OP.csv", [full_row; full_row]); ("HB1_OVER_TEMP.csv", [full_row])].

Definition short_corpus : dict DataGenerator.DataFrame :=
  [("NORMAL_OP.csv", [short_row])].

Definition empty_db : db := {| collections := ∅ |}.

Definition accept (t : Z) : world :=
  {| draw := 0; store_reply := Ok t; clock := (9, 5, 33) |}.
Definition reject : world :=
  {| draw := 0; store_reply := Raise (ServiceError "503 unavailable");
     clock := (9, 5, 34) |}.

(** One whole iteration of the loop, accepted by the store at time [t]. *)
Definition iteration (t : Z) : list event :=
  [Run (accept t); Run (accept t); Run (accept t); Run (accept t);
   Run (accept t); Run (accept t)].

Definition verdict (t : Z) (label : string) (conf : Qc) : document :=
  <["timestamp" := VTime {| epoch_us := t; tz_aware := true |}]>
  (<["fault_label" := VStr label]> (<["confidence" := VFloat (FNum conf)]>
  (<["location" := VStr "bench-1"]> (<["description" := VStr "-"]>
  (<["source_file" := VStr "NORMAL_OP.csv"]> ∅))))).

Definition db_of (vs : list document) : db :=
  {| collections := <["verdicts" := vs]> ∅ |}.

Definition noon : wall_clock :=
  {| year := 2025; month := 3; day := 7; hour := 12; minute := 0; second := 9 |}.

Definition fresh : session := {| cache := None; issued := [] |}.

(** A file system with one of the nine files. *)
Definition one_file (path : string) : result DataGenerator.DataFrame :=
  if decide (path = "./NORMAL_OP.csv") then Ok [full_row]
  else Raise (ValueError "No such file or directory").

(** A row without the [Ia] column, and its sample. *)
Definition no_ia_row : row := <["Ib" := CInt 8]> (<["VDC" := CInt 9]> ∅).
Definition no_ia_sample : sample :=
  <["timestamp" := SERVER_TIMESTAMP]> (<["source_file" := WStr "NORMAL_OP.csv"]>
  (<["Ib" := WFloat (FNum (Z2Qc 8))]> (<["VDC" := WFloat (FNum (Z2Qc 9))]> ∅))).

(** A verdict without a location. *)
Definition unlocated (t : Z) (label : string) (conf : Qc) : document :=
  delete "location" (verdict t label conf).

End Examples.

(** ** Notions the properties are stated with *)

Import DataGenerator Dashboard.

(** The lines of the summary block all start with one of these. *)
Definition summary_line (text : string) : bool :=
  String.prefix "Total Samples Processed" text
  || String.prefix "Average Confidence" text
  || String.prefix "System Uptime" text.

Definition is_summary (f : flowable) : bool :=
  match f with
  | Paragraph text _ => summary_line text
  | _ => false
  end.

(** A record of the snapshot as the data model has it: with its server
    timestamp, a confidence and a fault label. *)
Definition is_verdict (d : document) : Prop :=
  (exists t, d !! "timestamp" = Some (VTime t))
  /\ (exists c, d !! "confidence" = Some (VFloat c))
  /\ (exists l, d !! "fault_label" = Some (VStr l)).

(** The timestamps of a snapshot, in microseconds. *)
Definition epochs (df : Dashboard.DataFrame) : list Z :=
  omap (fun d => instant (d !! "timestamp")) df.

(** The confidence a record carries, if any. *)
Definition confidence_of (d : document) : option value := d !! "confidence".

(** The counter against the store: equal, except between the write and
    the increment, where the store is one ahead. *)
Definition counted (s0 : db) (st : state) : Prop :=
  match at_pc st with
  | AtIncr _ => submitted s0 st = count st + 1
  | Exited => count st <= submitted s0 st <= count st + 1
  | _ => submitted s0 st = count st
  end.

(** The sample comes from the file [name]. *)
Definition from_file (name : string) (o : result sample) : bool :=
  match o with
  | Ok s => bool_decide (s !! "source_file" = Some (WStr name))
  | Raise _ => false
  end.

(** What a cell contributes to a sample, when it converts. *)
Definition feature_of (float_of_str : string -> option pyfloat) (c : cell)
  : option write_value :=
  match py_float float_of_str c with
  | Ok f => Some (WFloat f)
  | Raise _ => None
  end.

(** The rest of [get_random_sample] once the table is chosen. *)
Definition draw_row (float_of_str : string -> option pyfloat)
    (csv_file : string) (df : DataGenerator.DataFrame)
  : Random.M sample :=
  random_idx ← Random.randint 0 (len df - 1);
  row ← Random.lift (iloc df random_idx);
  Random.lift (sample_of_row float_of_str csv_file row).

(** The distribution the specification describes: one outcome per table
    and row, weighted [1 / tables] times [1 / rows of the table]. *)
Definition uniform_rows (float_of_str : string -> option pyfloat)
    (d : dict DataGenerator.DataFrame) : Random.M sample :=
  flat_map (fun p =>
              map (fun r => ((1 / Z2Qc (Z.of_nat (length d))
                              * (1 / Z2Qc (Z.of_nat (length p.2))))%Qc,
                             sample_of_row float_of_str p.1 r)) p.2) d.

(** What [load_csv_files] keeps: the files that read, in the order of the
    list, each with its table. *)
Definition readable (read_csv : string -> result DataGenerator.DataFrame)
    (files : list string) : dict DataGenerator.DataFrame :=
  omap (fun f => match read_csv (path_join ASSETS_DIR f) with
                 | Ok df => Some (f, df)
                 | Raise _ => None
                 end) files.

(** A corpus the loop can run on for ever: some table, no table without
    rows, and in every row the channels that are there hold numbers and
    [Ia], [Ib] and [VDC] are there. *)
Definition printable_row (float_of_str : string -> option pyfloat) (r : row) : Prop :=
  (forall c v, c ∈ FEATURE_COLS -> r !! c = Some v ->
               is_ok (py_float float_of_str v) = true)
  /\ is_Some (r !! "Ia") /\ is_Some (r !! "Ib") /\ is_Some (r !! "VDC").

Definition sound_corpus (float_of_str : string -> option pyfloat)
    (d : dict DataGenerator.DataFrame) : Prop :=
  d <> [] /\ NoDup (keys d)
  /\ Forall (fun p => p.2 <> [] /\ Forall (printable_row float_of_str) p.2) d.

(** A document as the appender leaves it in [raw_readings]: stamped by the
    server, naming one of the loaded files, and otherwise holding channel
    readings only. *)
Definition raw_reading (d : dict DataGenerator.DataFrame) (doc : document) : Prop :=
  (exists t, doc !! "timestamp" = Some (VTime {| epoch_us := t; tz_aware := true |}))
  /\ (exists name, doc !! "source_file" = Some (VStr name) /\ name ∈ keys d)
  /\ (forall k v, doc !! k = Some v -> k <> "timestamp" -> k <> "source_file" ->
        k ∈ FEATURE_COLS /\ exists f, v = VFloat f).

(** A timestamp field as the server writes it, or none. *)
Definition stamped (doc : document) : Prop :=
  match doc !! "timestamp" with
  | None | Some VNull | Some (VTime _) => True
  | Some _ => False
  end.

(** Later first, missing last. *)
Definition not_before (a b : option Z) : Prop :=
  match a, b with
  | Some x, Some y => y <= x
  | _, None => True
  | None, Some _ => False
  end.

(** Successive calls of the cached [fetch_verdicts], each at its time and
    on the store as it is then. *)
Fixpoint poll (parse : value -> result datetime) (calls : list (Qc * db))
    (ss : session) : list (result Dashboard.DataFrame) * session :=
  match calls with
  | [] => ([], ss)
  | (now, s) :: calls' =>
      let r := cached_fetch_verdicts parse now s ss in
      let rest := poll parse calls' r.2 in
      (r.1 :: rest.1, rest.2)
  end.

(** The rows of a column that carry the label [l]. *)
Definition occurrences (l : string) (col : list (option value)) : Z :=
  Z.of_nat (length (filter (fun v => v = Some (VStr l)) col)).

(** The cells of a column that carry some label. *)
Definition is_label (v : option value) : bool :=
  match v with
  | Some (VStr _) => true
  | _ => false
  end.

Definition labelled (col : list (option value)) : Z :=
  Z.of_nat (length (filter (fun v => is_label v = true) col)).

Definition sum_counts (vc : list (string * Z)) : Z :=
  foldr (fun lc acc => lc.2 + acc) 0 vc.

(** The sample a statement of the loop holds, if any. *)
Definition carried (p : pc) : option sample :=
  match p with
  | AtAdd smp | AtIncr smp | AtPrintPushed smp | AtPrintFeatures smp => Some smp
  | _ => None
  end.

(** A sample both [print]s of the loop can show. *)
Definition showable (smp : sample) : Prop :=
  (exists name, smp !! "source_file" = Some (WStr name))
  /\ (exists f, smp !! "Ia" = Some (WFloat f))
  /\ (exists f, smp !! "Ib" = Some (WFloat f))
  /\ (exists f, smp !! "VDC" = Some (WFloat f)).

(** The statement the loop is at after [n] statements without an exit. *)
Definition on_schedule (n : Z) (p : pc) : Prop :=
  match p with
  | AtSample => n mod 6 = 0
  | AtAdd smp => n mod 6 = 1 /\ showable smp
  | AtIncr smp => n mod 6 = 2 /\ showable smp
  | AtPrintPushed smp => n mod 6 = 3 /\ showable smp
  | AtPrintFeatures smp => n mod 6 = 4 /\ showable smp
  | AtSleep => n mod 6 = 5
  | Exited => False
  end.

(** * Properties *)

(** *** The corpus loader *)

Lemma keys_setitem {V} (d : dict V) (k : string) (v : V) :
  keys (setitem d k v) = if decide (k ∈ keys d) then keys d else (keys d ++ [k])%list.
Proof.
  induction d as [|[k' v'] d IH]; cbn [setitem keys map fst].
  - case_decide; [set_solver|done].
  - destruct (decide (k' = k)) as [->|Hne]; cbn [keys map fst].
    + clear IH. case_decide; [done|set_solver].
    + fold (keys (setitem d k v)). fold (keys d). rewrite IH.
      destruct (decide (k ∈ keys d)) as [Hin|Hout].
      * rewrite decide_True; [done|]. by right.
      * rewrite decide_False; [done|]. intros [?|?]%elem_of_cons; [congruence|done].
Qed.

Lemma setitem_NoDup {V} (d : dict V) (k : string) (v : V) :
  NoDup (keys d) -> NoDup (keys (setitem d k v)).
Proof.
  intros Hnd. rewrite keys_setitem. case_decide; [done|].
  apply NoDup_app. split; [done|]. split; [set_solver|]. apply NoDup_singleton.
Qed.

(** The dict [load_csv_files] returns has no key twice, as any dict. *)
Lemma load_from_NoDup (read_csv : string -> result DataGenerator.DataFrame)
    (files : list string) (acc d : dict DataGenerator.DataFrame) (out : list string) :
  NoDup (keys acc) -> (load_from read_csv files acc out).2 = Ok d -> NoDup (keys d).
Proof.
  revert acc out. induction files as [|f files IH]; intros acc out Hnd; simpl.
  - by intros [= <-].
  - destruct (read_csv _) as [df|e].
    + apply IH. by apply setitem_NoDup.
    + destruct (is_Exception e); [by apply IH|done].
Qed.

Lemma load_csv_files_NoDup (read_csv : string -> result DataGenerator.DataFrame)
    (d : dict DataGenerator.DataFrame) :
  (load_csv_files read_csv).2 = Ok d -> NoDup (keys d).
Proof. apply load_from_NoDup. constructor. Qed.

(** *** The report *)

(** C8. For an empty snapshot the story is the title block, the generation
    time and the notice "No data available.", and nothing else: no sample
    count, no mean confidence and no uptime line is produced, so neither a
    0 nor a NaN can appear for them. *)
Theorem C8_empty_snapshot_report (now : wall_clock) (df : Dashboard.DataFrame) :
  Dashboard.empty df = true ->
  generate_pdf_report now df =
    Ok [ Paragraph "<b>PMSM Fault Diagnosis Report</b>" "Title";
         Spacer 1 12;
         Paragraph ("Generated: " ++ Dashboard.strftime now) "Normal";
         Spacer 1 12;
         Paragraph "No data available." "Normal" ]
  /\ (forall story, generate_pdf_report now df = Ok story ->
        In (Paragraph "No data available." "Normal") story
        /\ List.filter is_summary story = []).
Proof.
  intros Hempty. unfold generate_pdf_report. rewrite Hempty. simpl.
  split; [reflexivity|].
  intros story [= <-]. split.
  - simpl. tauto.
  - reflexivity.
Qed.

Lemma C8_empty_snapshot_report_witness :
  generate_pdf_report Examples.noon [] =
    Ok [ Paragraph "<b>PMSM Fault Diagnosis Report</b>" "Title";
         Spacer 1 12;
         Paragraph ("Generated: " ++ Dashboard.strftime Examples.noon) "Normal";
         Spacer 1 12;
         Paragraph "No data available." "Normal" ]
  /\ (forall story, generate_pdf_report Examples.noon [] = Ok story ->
        In (Paragraph "No data available." "Normal") story
        /\ List.filter is_summary story = []).
Proof. apply (C8_empty_snapshot_report Examples.noon []). reflexivity. Defined.

Lemma verdicts_not_empty (df : Dashboard.DataFrame) :
  df <> [] -> Forall is_verdict df -> Dashboard.empty df = false.
Proof.
  destruct df as [|d df]; [done|]. intros _ Hv.
  apply Forall_cons in Hv as [([t Ht] & _) _]. simpl.
  rewrite bool_decide_eq_false_2; [done|].
  intros Hdom. assert (H : "timestamp" ∈ dom d) by (apply elem_of_dom; eauto).
  rewrite Hdom in H. set_solver.
Qed.

Lemma column_present (df : Dashboard.DataFrame) (c : string) :
  df <> [] -> Forall (fun d => is_Some (d !! c)) df ->
  column df c = Ok (map (fun d => d !! c) df).
Proof.
  destruct df as [|d df]; [done|]. intros _ Hc.
  apply Forall_cons in Hc as [Hd _]. unfold column. simpl.
  rewrite bool_decide_eq_true_2; done.
Qed.

Lemma floats_of_verdicts (df : Dashboard.DataFrame) :
  Forall is_verdict df ->
  exists fs, floats (map (fun d => d !! "confidence") df) = Ok fs.
Proof.
  induction 1 as [|d df (_ & [c Hc] & _) _ [fs IH]]; simpl.
  - by eexists.
  - rewrite Hc. simpl. rewrite IH. by eexists.
Qed.

Lemma labels_of_verdicts (df : Dashboard.DataFrame) :
  Forall is_verdict df ->
  exists ls, labels_of (map (fun d => d !! "fault_label") df) = Ok ls.
Proof.
  induction 1 as [|d df (_ & _ & [l Hl]) _ [ls IH]]; simpl.
  - by eexists.
  - rewrite Hl, IH. by eexists.
Qed.

Lemma instants_of_verdicts (df : Dashboard.DataFrame) :
  Forall is_verdict df ->
  map instant (map (fun d => d !! "timestamp") df) = map Some (epochs df).
Proof.
  unfold epochs.
  induction 1 as [|d df ([t Ht] & _) _ IH]; simpl; [done|].
  rewrite Ht. simpl. by rewrite IH.
Qed.

Lemma epochs_length (df : Dashboard.DataFrame) :
  Forall is_verdict df -> length (epochs df) = length df.
Proof.
  intros Hv. pose proof (instants_of_verdicts df Hv) as H.
  apply (f_equal length) in H. by rewrite !length_map in H.
Qed.

Lemma ts_max_spec (ts : list Z) :
  ts <> [] ->
  exists hi, ts_max (map Some ts) = Some hi /\ hi ∈ ts /\ Forall (fun t => t <= hi) ts.
Proof.
  induction ts as [|t ts IH]; [done|]. intros _.
  destruct ts as [|t' ts].
  - exists t. simpl. repeat split; [set_solver | repeat constructor; lia].
  - destruct IH as (hi & Hhi & Hin & Hle); [done|].
    unfold ts_max, ts_fold in *. cbn [map foldr] in *. rewrite Hhi.
    exists (Z.max t hi). split; [done|]. split.
    + destruct (Z.max_spec t hi) as [[_ ->]|[_ ->]]; set_solver.
    + constructor; [lia|]. eapply Forall_impl; [exact Hle|]. simpl. lia.
Qed.

Lemma ts_min_spec (ts : list Z) :
  ts <> [] ->
  exists lo, ts_min (map Some ts) = Some lo /\ lo ∈ ts /\ Forall (fun t => lo <= t) ts.
Proof.
  induction ts as [|t ts IH]; [done|]. intros _.
  destruct ts as [|t' ts].
  - exists t. simpl. repeat split; [set_solver | repeat constructor; lia].
  - destruct IH as (lo & Hlo & Hin & Hle); [done|].
    unfold ts_min, ts_fold in *. cbn [map foldr] in *. rewrite Hlo.
    exists (Z.min t lo). split; [done|]. split.
    + destruct (Z.min_spec t lo) as [[_ ->]|[_ ->]]; set_solver.
    + constructor; [lia|]. eapply Forall_impl; [exact Hle|]. simpl. lia.
Qed.

Lemma verdict_has (df : Dashboard.DataFrame) :
  Forall is_verdict df ->
  Forall (fun d => is_Some (d !! "timestamp")) df
  /\ Forall (fun d => is_Some (d !! "confidence")) df
  /\ Forall (fun d => is_Some (d !! "fault_label")) df.
Proof.
  intros Hv. repeat split; eapply Forall_impl; try exact Hv;
    intros d ([t Ht] & [c Hc] & [l Hl]); eauto.
Qed.

Lemma zero_span_hours (t : Z) :
  (Z2Qc (t - t) / Z2Qc 1000000 / Z2Qc 3600)%Qc = 0%Qc.
Proof. rewrite Z.sub_diag. apply (bool_decide_unpack _). vm_compute. exact I. Qed.



(** The report of the two-record snapshot above, and of one record. *)
Example report_two_and_a_half_hours :
  generate_pdf_report Examples.noon
    [Examples.verdict 9001000000 "fault1" (Examples.q 9 10);
     Examples.verdict 1000000 "normal" (Examples.q 1 2);
     Examples.verdict 1000000 "normal" (Examples.q 1 1)] =
  Ok [ Paragraph "<b>PMSM Fault Diagnosis Report</b>" "Title";
       Spacer 1 12;
       Paragraph "Generated: 2025-03-07 12:00:09" "Normal";
       Spacer 1 12;
       Paragraph "Total Samples Processed: 3" "Normal";
       Paragraph "Average Confidence: 80.00%" "Normal";
       Paragraph "System Uptime: 2.50 hours" "Normal";
       Spacer 1 12;
       Table [[TStr "Fault"; TStr "Count"]; [TStr "normal"; TInt 2];
              [TStr "fault1"; TInt 1]];
       Spacer 1 12 ].
Proof. vm_compute. reflexivity. Qed.

(** *** The cached query layer *)

Lemma key_le_total (a b : Z * Qc) : key_le a b \/ key_le b a.
Proof.
  unfold key_le. destruct (Z.lt_trichotomy a.1 b.1) as [H|[H|H]]; [tauto| |tauto].
  destruct (Qclt_le_dec b.2 a.2) as [Hlt|Hle].
  - right. right. split; [done|]. by apply Qclt_le_weak.
  - left. right. done.
Qed.

#[global] Instance before_total field dir : Total (before field dir).
Proof. intros a b. destruct dir; simpl; apply key_le_total. Qed.

Lemma stream_sorted (qr : query) (s : db) :
  Sorted (before (q_order_by qr) (q_direction qr)) (stream qr s).
Proof. unfold stream. apply Sorted_merge_sort. apply _. Qed.

Lemma stream_from_collection (qr : query) (s : db) (d : document) :
  d ∈ stream qr s <-> d ∈ docs_of s (q_collection qr) /\ is_Some (d !! q_order_by qr).
Proof.
  unfold stream. rewrite merge_sort_Permutation. rewrite list_elem_of_filter. tauto.
Qed.

(** C5. A call that finds a cached result younger than the TTL, counted
    from the instant that result was captured, returns it and sends no
    query. Every other call (nothing cached, or the cached result has
    reached the TTL) sends exactly one query, the descending read of
    [verdicts] by [timestamp], and returns what the body makes of it: a
    result replaces the cache with the time of the call, an exception
    leaves nothing cached. For two calls in a row, the second less than the
    TTL after the first: when the first returns a result the two send at
    most one query together; when the first read the store for it, the
    second returns that same result without a query; when the first
    returned a cached result, the second returns it again while it is
    still inside the window of that result and reads the store once
    afterwards; when the first raises, the second sends a second query. *)
Theorem C5_ttl_cache (parse : value -> result datetime)
    (ss : session) (s1 s2 : db) (t1 t2 : Qc) :
  let call1 := cached_fetch_verdicts parse t1 s1 ss in
  let call2 := cached_fetch_verdicts parse t2 s2 call1.2 in
  (forall e, cache ss = Some e -> (t1 - captured_at e < ttl)%Qc ->
     call1 = (Ok (cached e), ss))
  /\ ((forall e, cache ss = Some e -> (ttl <= t1 - captured_at e)%Qc) ->
        issued call1.2 = (issued ss ++ [verdicts_query])%list
        /\ q_order_by verdicts_query = "timestamp"
        /\ q_direction verdicts_query = DESCENDING
        /\ Sorted (before "timestamp" DESCENDING) (stream verdicts_query s1)
        /\ call1.1 = fetch_verdicts parse s1
        /\ (forall df, call1.1 = Ok df ->
              cache call1.2 = Some {| cached := df; captured_at := t1 |})
        /\ (forall err, call1.1 = Raise err -> cache call1.2 = None))
  /\ ((t2 - t1 < ttl)%Qc ->
        (forall df1, call1.1 = Ok df1 ->
           (length (issued call2.2) <= length (issued ss) + 1)%nat
           /\ (issued call1.2 <> issued ss -> call2 = (Ok df1, call1.2))
           /\ (issued call1.2 = issued ss ->
                 exists e, cache ss = Some e /\ cached e = df1 /\ call1.2 = ss
                   /\ ((t2 - captured_at e < ttl)%Qc -> call2 = (Ok df1, ss))
                   /\ ((ttl <= t2 - captured_at e)%Qc ->
                         issued call2.2 = (issued ss ++ [verdicts_query])%list
                         /\ call2.1 = fetch_verdicts parse s2)))
        /\ (forall err, call1.1 = Raise err ->
              cache call1.2 = None
              /\ issued call2.2 = (issued ss ++ [verdicts_query; verdicts_query])%list
              /\ call2.1 = fetch_verdicts parse s2)).
Proof.
  intros call1 call2.
  assert (Hmiss : forall now s c,
            (forall e, cache c = Some e -> (ttl <= now - captured_at e)%Qc) ->
            cached_fetch_verdicts parse now s c
            = match fetch_verdicts parse s with
              | Ok df => (Ok df, {| cache := Some {| cached := df; captured_at := now |};
                                    issued := (issued c ++ [verdicts_query])%list |})
              | Raise err => (Raise err, {| cache := None;
                                    issued := (issued c ++ [verdicts_query])%list |})
              end).
  { intros now s c Hexp. unfold cached_fetch_verdicts.
    destruct (cache c) as [e|]; [|done].
    rewrite decide_False; [done|]. apply Qcle_not_lt. by apply Hexp. }
  assert (Hhit : forall now s c e, cache c = Some e -> (now - captured_at e < ttl)%Qc ->
            cached_fetch_verdicts parse now s c = (Ok (cached e), c)).
  { intros now s c e Hc Hw. unfold cached_fetch_verdicts. rewrite Hc.
    by rewrite decide_True. }
  assert (Hgrow : forall l : list query, (l ++ [verdicts_query])%list <> l).
  { intros l H. apply (f_equal length) in H. rewrite length_app in H. simpl in H. lia. }
  split; [|split].
  - intros e Hc Hw. by apply Hhit.
  - intros Hexp. subst call1. rewrite (Hmiss _ _ _ Hexp).
    repeat split; try done.
    + by destruct (fetch_verdicts parse s1).
    + apply (stream_sorted verdicts_query).
    + by destruct (fetch_verdicts parse s1).
    + intros df. destruct (fetch_verdicts parse s1); simpl; [|done]. by intros [= <-].
    + intros err. by destruct (fetch_verdicts parse s1).
  - intros Hw.
    destruct (cache ss) as [e|] eqn:Hc;
      [destruct (decide (t1 - captured_at e < ttl)%Qc) as [Hfresh|Hold]|].
    + (* the first call returns the cached result *)
      assert (H1 : call1 = (Ok (cached e), ss)) by (by apply Hhit).
      split.
      * intros df1 Hdf. rewrite H1 in Hdf. simpl in Hdf. injection Hdf as <-.
        subst call2. rewrite H1. cbn [fst snd].
        destruct (decide (t2 - captured_at e < ttl)%Qc) as [Hin|Hout].
        -- rewrite (Hhit _ _ _ _ Hc Hin). cbn [fst snd].
           split; [lia|]. split; [done|]. intros _. exists e.
           split; [done|]. split; [done|]. split; [done|]. split; [done|].
           intros Hle. by apply Qcle_not_lt in Hle.
        -- assert (Hexp : forall e', cache ss = Some e' -> (ttl <= t2 - captured_at e')%Qc).
           { intros e' He'. rewrite Hc in He'. injection He' as <-. by apply Qcnot_lt_le. }
           rewrite (Hmiss _ _ _ Hexp).
           split; [destruct (fetch_verdicts parse s2); simpl; rewrite length_app; simpl; lia|].
           split; [done|]. intros _. exists e.
           split; [done|]. split; [done|]. split; [done|]. split; [done|].
           intros _. by destruct (fetch_verdicts parse s2).
      * intros err Herr. by rewrite H1 in Herr.
    + (* the cached result has expired: the first call reads the store *)
      assert (Hexp : forall e', cache ss = Some e' -> (ttl <= t1 - captured_at e')%Qc).
      { intros e' He'. rewrite Hc in He'. injection He' as <-. by apply Qcnot_lt_le. }
      subst call2 call1. rewrite (Hmiss _ _ _ Hexp).
      destruct (fetch_verdicts parse s1) as [df|err]; cbn [fst snd].
      * split; [|done]. intros df1 [= <-].
        rewrite (Hhit t2 s2 {| cache := Some {| cached := df; captured_at := t1 |};
                               issued := (issued ss ++ [verdicts_query])%list |}
                   {| cached := df; captured_at := t1 |} eq_refl Hw).
        cbn [fst snd issued cached].
        split; [rewrite length_app; simpl; lia|]. split; [done|].
        intros H. by apply Hgrow in H.
      * split; [done|]. intros err' _. rewrite Hmiss by done. cbn [issued].
        rewrite <- app_assoc. simpl.
        split; [done|]. by destruct (fetch_verdicts parse s2).
    + (* nothing is cached: the first call reads the store *)
      assert (Hexp : forall e', cache ss = Some e' -> (ttl <= t1 - captured_at e')%Qc).
      { intros e' He'. by rewrite Hc in He'. }
      subst call2 call1. rewrite (Hmiss _ _ _ Hexp).
      destruct (fetch_verdicts parse s1) as [df|err]; cbn [fst snd].
      * split; [|done]. intros df1 [= <-].
        rewrite (Hhit t2 s2 {| cache := Some {| cached := df; captured_at := t1 |};
                               issued := (issued ss ++ [verdicts_query])%list |}
                   {| cached := df; captured_at := t1 |} eq_refl Hw).
        cbn [fst snd issued cached].
        split; [rewrite length_app; simpl; lia|]. split; [done|].
        intros H. by apply Hgrow in H.
      * split; [done|]. intros err' _. rewrite Hmiss by done. cbn [issued].
        rewrite <- app_assoc. simpl.
        split; [done|]. by destruct (fetch_verdicts parse s2).
Qed.

Lemma C5_ttl_cache_witness :
  let s1 := Examples.db_of [Examples.verdict 1000000 "normal" (Examples.q 1 2)] in
  let s2 := Examples.db_of [Examples.verdict 1000000 "normal" (Examples.q 1 2);
                            Examples.verdict 7000000 "fault1" (Examples.q 9 10)] in
  let call1 := cached_fetch_verdicts Examples.no_datetime (Z2Qc 0) s1 Examples.fresh in
  let call2 := cached_fetch_verdicts Examples.no_datetime (Z2Qc 5) s2 call1.2 in
  let call3 := cached_fetch_verdicts Examples.no_datetime (Z2Qc 12) s2 call1.2 in
  (Z2Qc 5 - Z2Qc 0 < ttl)%Qc
  /\ issued call1.2 = [verdicts_query]
  /\ (length (issued call2.2) <= 1)%nat
  /\ call2 = (call1.1, call1.2)
  /\ issued call3.2 = (issued call1.2 ++ [verdicts_query])%list
  /\ call3.1 = fetch_verdicts Examples.no_datetime s2.
Proof.
  intros s1 s2 call1 call2 call3.
  assert (Hw : (Z2Qc 5 - Z2Qc 0 < ttl)%Qc) by (vm_compute; reflexivity).
  assert (H1 : call1.1 = Ok (match call1.1 with Ok df => df | Raise _ => [] end))
    by (vm_compute; reflexivity).
  destruct (C5_ttl_cache Examples.no_datetime Examples.fresh s1 s2 (Z2Qc 0) (Z2Qc 5))
    as (_ & Hmiss & Htwo).
  destruct Hmiss as (Hq1 & _); [intros e [=]|].
  destruct (Htwo Hw) as (Hok & _).
  destruct (Hok _ H1) as (Hlen & Hsame & _).
  destruct (C5_ttl_cache Examples.no_datetime call1.2 s2 s2 (Z2Qc 12) (Z2Qc 12))
    as (_ & Hexp & _).
  destruct Hexp as (Hq3 & _ & _ & _ & Hr3 & _).
  { intros e [= <-]. vm_compute. discriminate. }
  split; [exact Hw|]. split; [exact Hq1|]. split; [exact Hlen|]. split.
  - fold call1 in Hsame. fold call2 in Hsame. rewrite Hsame.
    + reflexivity.
    + fold call1 in Hq1. rewrite Hq1. discriminate.
  - split; [exact Hq3 | exact Hr3].
Defined.

(** The claim as the specification words it fails twice. A first call whose
    read holds a timestamp that [pd.to_datetime] rejects raises, nothing
    is cached, and a second call five seconds later sends a second query.
    And after a read at 0 s, a call at 8 s returns the cached result and a
    call at 12 s, four seconds after it, reads the store again and returns
    something else. *)
Lemma C5_counterexample :
  let unparsed :=
    Examples.db_of [<["timestamp" := VStr "abc"]>
                      (Examples.verdict 1000000 "normal" (Examples.q 1 2))] in
  let failed := cached_fetch_verdicts Examples.no_datetime (Z2Qc 0) unparsed Examples.fresh in
  let again := cached_fetch_verdicts Examples.no_datetime (Z2Qc 5) unparsed failed.2 in
  let s1 := Examples.db_of [Examples.verdict 1000000 "normal" (Examples.q 1 2)] in
  let s2 := Examples.db_of [Examples.verdict 1000000 "normal" (Examples.q 1 2);
                            Examples.verdict 7000000 "fault1" (Examples.q 9 10)] in
  let read := cached_fetch_verdicts Examples.no_datetime (Z2Qc 0) s1 Examples.fresh in
  let first := cached_fetch_verdicts Examples.no_datetime (Z2Qc 8) s2 read.2 in
  let second := cached_fetch_verdicts Examples.no_datetime (Z2Qc 12) s2 first.2 in
  ((Z2Qc 5 - Z2Qc 0 < ttl)%Qc
   /\ failed.1 = Raise (ValueError "Unknown datetime string format")
   /\ cache failed.2 = None
   /\ issued again.2 = [verdicts_query; verdicts_query])
  /\ ((Z2Qc 12 - Z2Qc 8 < ttl)%Qc
      /\ first = (read.1, read.2)
      /\ second.1 = fetch_verdicts Examples.no_datetime s2
      /\ second.1 <> first.1
      /\ issued second.2 = [verdicts_query; verdicts_query]).
Proof.
  split.
  - repeat split; vm_compute; reflexivity.
  - split; [vm_compute; reflexivity|]. split; [vm_compute; reflexivity|].
    split; [vm_compute; reflexivity|]. split; [|vm_compute; reflexivity].
    vm_compute. intros [=].
Qed.

(** *** The random source *)

Lemma in_bind {A B} (m : Random.M A) (k : A -> Random.M B) (w : Qc) (o : result B) :
  In (w, o) (Random.bind m k) ->
  exists w1 r1, In (w1, r1) m
    /\ ((exists a w2, r1 = Ok a /\ In (w2, o) (k a) /\ w = (w1 * w2)%Qc)
        \/ (exists e, r1 = Raise e /\ o = Raise e /\ w = w1)).
Proof.
  unfold Random.bind. rewrite in_flat_map. intros ([w1 r1] & Hin & Hk).
  exists w1, r1. split; [done|]. simpl in Hk. destruct r1 as [a|e].
  - left. unfold Random.scale in Hk. apply in_map_iff in Hk as ([w2 o2] & [= <- <-] & Hin2).
    eauto 6.
  - right. destruct Hk as [[= <- <-]|[]]. eauto.
Qed.

Lemma in_lift {A} (r : result A) (w : Qc) (o : result A) :
  In (w, o) (Random.lift r) -> o = r /\ w = 1%Qc.
Proof. intros [[= <- <-]|[]]. done. Qed.

Lemma in_randbelow (n : nat) (w : Qc) (o : result nat) :
  In (w, o) (Random.randbelow n) -> exists k, o = Ok k /\ (k < n)%nat.
Proof.
  unfold Random.randbelow. rewrite in_map_iff. intros (k & [= <- <-] & Hk).
  apply in_seq in Hk. exists k. split; [done|lia].
Qed.

Lemma in_choose (l : list string) (w : Qc) (o : result string) :
  In (w, o) (Random.bind (Random.randbelow (length l))
               (fun i => Random.lift (match l !! i with
                                      | Some x => Ok x
                                      | None => Raise (IndexError "list index out of range")
                                      end))) ->
  exists x, x ∈ l /\ o = Ok x.
Proof.
  intros (w1 & r1 & Hin & Hk)%in_bind. apply in_randbelow in Hin as (i & -> & Hi).
  destruct Hk as [(a & w2 & [= <-] & Hl & _)|(e & [=] & _)].
  apply in_lift in Hl as [-> _].
  destruct (lookup_lt_is_Some_2 _ _ Hi) as [x Hx].
  exists x. rewrite Hx. split; [|done]. by eapply list_elem_of_lookup_2.
Qed.

Lemma in_choice (l : list string) (w : Qc) (o : result string) :
  In (w, o) (Random.choice l) ->
  (l = [] /\ exists e, o = Raise e) \/ (exists x, x ∈ l /\ o = Ok x).
Proof.
  destruct l as [|x0 l0]; [intros [-> _]%in_lift; left; eauto|].
  intros H. right. by eapply in_choose.
Qed.

Lemma in_randint (a b : Z) (w : Qc) (o : result Z) :
  In (w, o) (Random.randint a b) ->
  (b < a /\ exists e, o = Raise e) \/ (exists k, a <= k <= b /\ o = Ok k).
Proof.
  unfold Random.randint. destruct (decide _) as [Hpos|Hneg].
  - intros (w1 & r1 & Hin & Hk)%in_bind. apply in_randbelow in Hin as (i & -> & Hi).
    destruct Hk as [(x & w2 & [= <-] & Hl & _)|(e & [=] & _)].
    destruct Hl as [[= <- <-]|[]]. right. exists (a + Z.of_nat i). split; [lia|done].
  - intros [-> _]%in_lift. left. split; [lia|eauto].
Qed.

(** *** The sample synthesizer *)

Section Synthesizer.
Variable float_of_str : string -> option pyfloat.

Lemma extract_features_lookup (cols : list string) (r : row) (m : sample) :
  extract_features float_of_str cols r = Ok m ->
  forall k, m !! k = if decide (k ∈ cols) then r !! k ≫= feature_of float_of_str else None.
Proof.
  revert m. induction cols as [|col cols IH]; intros m; cbn [extract_features].
  - intros [= <-] k. rewrite lookup_empty. case_decide; [set_solver|done].
  - destruct (r !! col) as [c|] eqn:Hc.
    + destruct (py_float float_of_str c) as [f|e] eqn:Hf; simpl; [|done].
      destruct (extract_features float_of_str cols r) as [rest|e]; simpl; [|done].
      intros [= <-] k. destruct (decide (k = col)) as [->|Hne].
      * rewrite lookup_insert_eq. rewrite Hc. simpl. unfold feature_of. rewrite Hf.
        case_decide; [done|set_solver].
      * rewrite lookup_insert_ne by done. rewrite (IH rest eq_refl k).
        repeat case_decide; try done; set_solver.
    + intros Hm k. rewrite (IH m Hm k). destruct (decide (k = col)) as [->|Hne].
      * rewrite Hc. simpl. by repeat case_decide.
      * repeat case_decide; try done; set_solver.
Qed.

Lemma extract_features_ok (cols : list string) (r : row) :
  (forall c v, c ∈ cols -> r !! c = Some v -> is_ok (py_float float_of_str v) = true) ->
  is_ok (extract_features float_of_str cols r) = true.
Proof.
  induction cols as [|col cols IH]; intros Hnum; simpl; [done|].
  assert (Hrest : is_ok (extract_features float_of_str cols r) = true).
  { apply IH. intros c v Hc. apply Hnum. set_solver. }
  destruct (r !! col) as [c|] eqn:Hc; [|done].
  specialize (Hnum col c (list_elem_of_here _ _) Hc).
  destruct (py_float float_of_str c); [|done]. simpl.
  by destruct (extract_features float_of_str cols r).
Qed.

Lemma sample_of_row_lookup (name : string) (r : row) (s : sample) :
  sample_of_row float_of_str name r = Ok s ->
  s !! "timestamp" = Some SERVER_TIMESTAMP
  /\ s !! "source_file" = Some (WStr name)
  /\ forall k, k <> "timestamp" -> k <> "source_file" ->
       s !! k = if decide (k ∈ FEATURE_COLS) then r !! k ≫= feature_of float_of_str else None.
Proof.
  unfold sample_of_row.
  destruct (extract_features float_of_str FEATURE_COLS r) as [m|e] eqn:Hm; simpl; [|done].
  intros [= <-]. split; [by rewrite lookup_insert_eq|]. split.
  - rewrite lookup_insert_ne by done. by rewrite lookup_insert_eq.
  - intros k H1 H2. rewrite !lookup_insert_ne by done.
    by apply extract_features_lookup.
Qed.

Lemma getitem_elem_of {V} (d : dict V) (k : string) (v : V) :
  getitem d k = Ok v -> (k, v) ∈ d.
Proof.
  induction d as [|[k' v'] d IH]; simpl; [done|].
  destruct (decide (k' = k)) as [->|Hne].
  - intros [= ->]. left.
  - intros H. right. by apply IH.
Qed.

Lemma getitem_NoDup {V} (d : dict V) (k : string) (v : V) :
  NoDup (keys d) -> (k, v) ∈ d -> getitem d k = Ok v.
Proof.
  induction d as [|[k' v'] d IH]; simpl; [by intros _ ?%elem_of_nil|].
  intros [Hk' Hnd]%NoDup_cons [[= -> ->]|Hin]%elem_of_cons.
  - by rewrite decide_True.
  - rewrite decide_False; [by apply IH|].
    intros ->. apply Hk'. unfold keys. apply list_elem_of_fmap. by exists (k, v).
Qed.

Lemma iloc_lookup (df : DataGenerator.DataFrame) (i : Z) (r : row) :
  0 <= i -> iloc df i = Ok r -> df !! Z.to_nat i = Some r.
Proof.
  intros Hi. unfold iloc. cbv zeta.
  destruct (decide (i < 0)); [lia|]. destruct (decide (0 <= i)); [|lia].
  by destruct (df !! Z.to_nat i) as [r'|]; intros [= ->].
Qed.

(** Every sample [get_random_sample] can return is the sample of one row
    of one of the loaded tables. *)
Lemma get_random_sample_support (d : dict DataGenerator.DataFrame) (w : Qc) (s : sample) :
  In (w, Ok s) (get_random_sample float_of_str d) ->
  exists name df i r,
    getitem d name = Ok df /\ df !! i = Some r
    /\ sample_of_row float_of_str name r = Ok s.
Proof.
  unfold get_random_sample.
  intros (w1 & r1 & Hc & [(name & w2 & -> & H & _)|(e & _ & [=] & _)])%in_bind.
  apply in_bind in H as (w3 & r3 & Hg & [(df & w4 & -> & H & _)|(e & _ & [=] & _)]).
  apply in_lift in Hg as [Hg _].
  apply in_bind in H as (w5 & r5 & Hi & [(i & w6 & -> & H & _)|(e & _ & [=] & _)]).
  apply in_randint in Hi as [(_ & e & [=])|(k & Hk & [= <-])].
  apply in_bind in H as (w7 & r7 & Hr & [(r & w8 & -> & H & _)|(e & _ & [=] & _)]).
  apply in_lift in Hr as [Hr _]. apply in_lift in H as [H _].
  exists name, df, (Z.to_nat i), r. split; [done|]. split; [|done].
  apply iloc_lookup; [lia|done].
Qed.

Lemma extract_features_converts (cols : list string) (r : row) (m : sample) :
  extract_features float_of_str cols r = Ok m ->
  forall c v, c ∈ cols -> r !! c = Some v -> is_Some (feature_of float_of_str v).
Proof.
  revert m. induction cols as [|col cols IH]; intros m; cbn [extract_features].
  - intros _ c v Hc. set_solver.
  - destruct (r !! col) as [c0|] eqn:Hc0.
    + destruct (py_float float_of_str c0) as [f|e] eqn:Hf; simpl; [|done].
      destruct (extract_features float_of_str cols r) as [rest|e]; simpl; [|done].
      intros _ c v [->|Hc]%elem_of_cons Hv.
      * rewrite Hc0 in Hv. injection Hv as <-. unfold feature_of. rewrite Hf. eauto.
      * by eapply (IH rest).
    + intros Hm c v [->|Hc]%elem_of_cons Hv; [congruence|]. by eapply (IH m).
Qed.

Lemma sample_of_row_dom (name : string) (r : row) (s : sample) :
  sample_of_row float_of_str name r = Ok s ->
  dom s = (list_to_set FEATURE_COLS ∩ dom r) ∪ {[ "source_file"; "timestamp" ]}.
Proof.
  intros Hs. destruct (sample_of_row_lookup name r s Hs) as (Ht & Hf & Hk).
  assert (Hconv : forall c v, c ∈ FEATURE_COLS -> r !! c = Some v -> is_Some (feature_of float_of_str v)).
  { unfold sample_of_row in Hs.
    destruct (extract_features float_of_str FEATURE_COLS r) as [m|e] eqn:Hm; [|done].
    by apply (extract_features_converts _ _ _ Hm). }
  apply set_eq. intros k.
  rewrite elem_of_union, elem_of_intersection, elem_of_list_to_set, !elem_of_dom.
  destruct (decide (k = "timestamp")) as [->|H1]; [rewrite Ht; set_solver|].
  destruct (decide (k = "source_file")) as [->|H2]; [rewrite Hf; set_solver|].
  rewrite (Hk k H1 H2). case_decide as Hin.
  - destruct (r !! k) as [v|] eqn:Hv; simpl.
    + split; [intros _; left; eauto|]. intros _. by eapply Hconv.
    + split; [by intros [? ?]|]. intros [[_ [? ?]]|?]; [done|set_solver].
  - split; [by intros [? ?]|]. intros [[? _]|?]; [done|set_solver].
Qed.

End Synthesizer.



(** The sample of a row that has three of the eight channels has three
    features. *)
Example short_row_sample :
  (fun s : sample => map fst (map_to_list s))
    <$> (match sample_of_row Examples.no_float "NORMAL_OP.csv" Examples.short_row with
         | Ok s => Some s
         | Raise _ => None
         end)
  = Some ["source_file"; "Ia"; "Ib"; "VDC"; "timestamp"].
Proof. vm_compute. reflexivity. Qed.

(** C4, as the code has it. The sample [get_random_sample] returns does
    carry a [timestamp] field: it holds the sentinel
    [firestore.SERVER_TIMESTAMP], never an instant. The instant is the
    server's: the write replaces the sentinel by the time at which the store
    accepts the record. *)
Theorem C4_timestamp_is_the_server_sentinel
    (float_of_str : string -> option pyfloat) (d : dict DataGenerator.DataFrame)
    (w : Qc) (s : sample) :
  In (w, Ok s) (get_random_sample float_of_str d) ->
  s !! "timestamp" = Some SERVER_TIMESTAMP
  /\ forall (name : string) (server_now : Z) (st : db),
       exists doc : document,
         docs_of (add name s server_now st) name = (docs_of st name ++ [doc])%list
         /\ doc !! "timestamp"
            = Some (VTime {| epoch_us := server_now; tz_aware := true |}).
Proof.
  intros Hin.
  destruct (get_random_sample_support _ _ _ _ Hin) as (name & df & i & r & _ & _ & Hs).
  destruct (sample_of_row_lookup _ _ _ _ Hs) as (Ht & _ & _).
  split; [done|]. intros coll server_now st.
  exists (commit_value server_now <$> s). split.
  - unfold add, docs_of at 1. simpl. by rewrite lookup_insert_eq.
  - rewrite lookup_fmap, Ht. done.
Qed.

Lemma C4_timestamp_is_the_server_sentinel_witness :
  In (Examples.q 1 4, Ok Examples.full_sample)
     (get_random_sample Examples.no_float Examples.corpus)
  /\ Examples.full_sample !! "timestamp" = Some SERVER_TIMESTAMP
  /\ forall (name : string) (server_now : Z) (st : db),
       exists doc : document,
         docs_of (add name Examples.full_sample server_now st) name
         = (docs_of st name ++ [doc])%list
         /\ doc !! "timestamp"
            = Some (VTime {| epoch_us := server_now; tz_aware := true |}).
Proof.
  assert (H : In (Examples.q 1 4, Ok Examples.full_sample)
                (get_random_sample Examples.no_float Examples.corpus))
    by (vm_compute; left; reflexivity).
  split; [exact H|].
  exact (C4_timestamp_is_the_server_sentinel Examples.no_float Examples.corpus
           (Examples.q 1 4) Examples.full_sample H).
Defined.

(** The claim as the specification words it fails: the [timestamp] key of
    a returned sample is set. *)
Lemma C4_counterexample :
  match Random.pick 0 (get_random_sample Examples.no_float Examples.corpus) with
  | Ok s => s !! "timestamp" = Some SERVER_TIMESTAMP /\ s !! "timestamp" <> None
  | Raise _ => False
  end.
Proof. vm_compute. split; [reflexivity | discriminate]. Qed.

(** *** Confidence on its way through the pipeline *)

Lemma drop_tzinfo_confidence (d : document) :
  confidence_of (drop_tzinfo d) = confidence_of d.
Proof.
  unfold drop_tzinfo, confidence_of.
  destruct (d !! "timestamp") as [[]|]; try done. by rewrite lookup_insert_ne.
Qed.

Lemma convert_rows_confidence (parse : value -> result datetime)
    (df df' : Dashboard.DataFrame) :
  convert_rows parse df = Ok df' -> map confidence_of df' = map confidence_of df.
Proof.
  revert df'. induction df as [|d df IH]; intros df'; simpl.
  - by intros [= <-].
  - destruct (to_datetime parse (d !! "timestamp")) as [t|e]; simpl; [|done].
    destruct (convert_rows parse df) as [rest|e]; simpl; [|done].
    intros [= <-]. simpl. rewrite (IH rest eq_refl). f_equal.
    unfold confidence_of. by rewrite lookup_insert_ne.
Qed.

Lemma fetch_verdicts_confidence (parse : value -> result datetime) (st : db)
    (df : Dashboard.DataFrame) :
  fetch_verdicts parse st = Ok df ->
  map confidence_of df = map confidence_of (stream verdicts_query st).
Proof.
  unfold fetch_verdicts. intros H.
  assert (Hmap : map confidence_of (map drop_tzinfo (stream verdicts_query st))
                 = map confidence_of (stream verdicts_query st)).
  { rewrite map_map. apply map_ext. intros d. apply drop_tzinfo_confidence. }
  destruct (negb _).
  - unfold set_timestamp_column in H.
    destruct (column _ _); simpl in H; [|done].
    by rewrite (convert_rows_confidence _ _ _ H).
  - by injection H as <-.
Qed.




(** *** The appender loop *)

Section Appender.
Variable float_of_str : string -> option pyfloat.
Variable data_dict : dict DataGenerator.DataFrame.
Variable interval : Z.

Let step := step float_of_str data_dict interval.

Lemma docs_of_add_eq (name : string) (smp : sample) (t : Z) (s : db) :
  docs_of (add name smp t s) name = (docs_of s name ++ [commit_value t <$> smp])%list.
Proof. unfold add, docs_of at 1. simpl. by rewrite lookup_insert_eq. Qed.

Lemma docs_of_add_ne (name c : string) (smp : sample) (t : Z) (s : db) :
  c <> name -> docs_of (add name smp t s) c = docs_of s c.
Proof. intros Hne. unfold add, docs_of. simpl. by rewrite lookup_insert_ne. Qed.

Lemma raise_exits (e : exn) (st : state) :
  at_pc (raise e st) = Exited /\ store (raise e st) = store st
  /\ count (raise e st) = count st.
Proof. unfold raise. by destruct (is_Exception e). Qed.

Lemma step_exited (st : state) (ev : event) :
  at_pc st = Exited -> step st ev = st.
Proof. intros H. unfold step, DataGenerator.step. by rewrite H. Qed.

Lemma run_exited (evs : list event) (st : state) :
  at_pc st = Exited -> fold_left step evs st = st.
Proof.
  intros H. induction evs as [|ev evs IH]; simpl; [done|].
  by rewrite step_exited.
Qed.

(** One statement either leaves the store alone or appends one whole
    record to [raw_readings]. *)
Lemma step_store (st : state) (ev : event) :
  store (step st ev) = store st
  \/ exists smp t, at_pc st = AtAdd smp /\ at_pc (step st ev) = AtIncr smp
       /\ store (step st ev) = add "raw_readings" smp t (store st).
Proof.
  unfold step, DataGenerator.step, exec.
  destruct (at_pc st) eqn:Hpc, ev as [|w]; try (by left);
    repeat match goal with
           | |- context [match ?x with Ok _ => _ | Raise _ => _ end] => destruct x eqn:?
           end;
    try (left; apply raise_exits); try (by left).
  right. eauto.
Qed.

Lemma step_other_collections (st : state) (ev : event) (c : string) :
  c <> "raw_readings" -> docs_of (store (step st ev)) c = docs_of (store st) c.
Proof.
  intros Hne. destruct (step_store st ev) as [->|(smp & t & _ & _ & ->)]; [done|].
  by apply docs_of_add_ne.
Qed.

Lemma run_other_collections (evs : list event) (st : state) (c : string) :
  c <> "raw_readings" ->
  docs_of (store (fold_left step evs st)) c = docs_of (store st) c.
Proof.
  intros Hne. revert st. induction evs as [|ev evs IH]; intros st; simpl; [done|].
  rewrite IH. by apply step_other_collections.
Qed.

Lemma run_raw_readings (evs : list event) (st : state) :
  exists added,
    docs_of (store (fold_left step evs st)) "raw_readings"
    = (docs_of (store st) "raw_readings" ++ added)%list.
Proof.
  revert st. induction evs as [|ev evs IH]; intros st; simpl.
  - exists []. by rewrite app_nil_r.
  - destruct (IH (step st ev)) as [added ->].
    destruct (step_store st ev) as [->|(smp & t & _ & _ & ->)]; [by eexists|].
    rewrite docs_of_add_eq, <- app_assoc. by eexists.
Qed.

Lemma counted_init (s0 : db) : counted s0 (init s0).
Proof. unfold counted, submitted. simpl. lia. Qed.

Lemma counted_interrupt (s0 : db) (st : state) :
  counted s0 st -> counted s0 (on_interrupt st).
Proof. unfold counted, submitted. simpl. destruct (at_pc st); lia. Qed.

Lemma counted_raise (s0 : db) (e : exn) (st : state) :
  counted s0 st -> counted s0 (raise e st).
Proof.
  unfold counted, submitted, raise. destruct (is_Exception e); simpl;
    destruct (at_pc st); lia.
Qed.

Lemma counted_step (s0 : db) (st : state) (ev : event) :
  counted s0 st -> counted s0 (step st ev).
Proof.
  intros Hc. unfold step, DataGenerator.step.
  destruct (at_pc st) eqn:Hpc, ev as [|w];
    try (by apply counted_interrupt); try done;
    unfold exec; rewrite Hpc;
    repeat match goal with
           | |- context [match ?x with Ok _ => _ | Raise _ => _ end] => destruct x eqn:?
           end;
    try (by apply counted_raise);
    revert Hc; unfold counted, submitted; rewrite Hpc; simpl;
    rewrite ?docs_of_add_eq, ?length_app; simpl; lia.
Qed.

Lemma counted_run (s0 : db) (evs : list event) (st : state) :
  counted s0 st -> counted s0 (fold_left step evs st).
Proof.
  revert st. induction evs as [|ev evs IH]; intros st Hc; simpl; [done|].
  apply IH. by apply counted_step.
Qed.

End Appender.

Lemma stream_same_docs (qr : query) (s s' : db) :
  docs_of s' (q_collection qr) = docs_of s (q_collection qr) ->
  stream qr s' = stream qr s.
Proof. unfold stream. by intros ->. Qed.



(** C2, as the code has it. The [try] encloses the whole loop. When the
    store raises on a submission, the handler prints the error and
    [push_data] is over: nothing more is submitted or counted, whatever
    happens next. *)
Theorem C2_failed_write_ends_the_loop
    (float_of_str : string -> option pyfloat)
    (data_dict : dict DataGenerator.DataFrame) (interval : Z)
    (st : state) (smp : sample) (w : world) (e : exn) :
  at_pc st = AtAdd smp ->
  store_reply w = Raise e ->
  is_Exception e = true ->
  let st' := step float_of_str data_dict interval st (Run w) in
  at_pc st' = Exited
  /\ stdout st' = (stdout st ++ [("✗ Error: " ++ str_exn e)%string])%list
  /\ store st' = store st
  /\ count st' = count st
  /\ forall events,
       fold_left (step float_of_str data_dict interval) events st' = st'.
Proof.
  intros Hpc Hreply Hexn st'.
  assert (Hst' : st' = on_exception e st).
  { unfold st', step, exec. rewrite Hpc, Hreply. unfold raise. by rewrite Hexn. }
  rewrite Hst'. repeat split; try done.
  intros events. by apply run_exited.
Qed.

Lemma C2_failed_write_ends_the_loop_witness :
  let st := push_data Examples.no_float Examples.corpus 60 Examples.empty_db
              [Run (Examples.accept 1000000)] in
  let st' := step Examples.no_float Examples.corpus 60 st (Run Examples.reject) in
  at_pc st = AtAdd Examples.full_sample
  /\ at_pc st' = Exited
  /\ stdout st' = (stdout st ++ ["✗ Error: 503 unavailable"])%list
  /\ store st' = store st
  /\ count st' = count st
  /\ forall events,
       fold_left (step Examples.no_float Examples.corpus 60) events st' = st'.
Proof.
  intros st st'.
  assert (Hpc : at_pc st = AtAdd Examples.full_sample) by (vm_compute; reflexivity).
  split; [exact Hpc|].
  exact (C2_failed_write_ends_the_loop Examples.no_float Examples.corpus 60 st
           Examples.full_sample Examples.reject (ServiceError "503 unavailable")
           Hpc eq_refl eq_refl).
Defined.

(** The claim as the specification words it fails: the store rejects the
    second submission; the events of a third iteration change nothing, one
    record is in the store and the last line printed is the error. *)
Lemma C2_counterexample :
  let events := (Examples.iteration 1000000
                   ++ [Run (Examples.accept 2000000); Run Examples.reject]
                   ++ Examples.iteration 3000000)%list in
  let st := push_data Examples.no_float Examples.corpus 60 Examples.empty_db events in
  at_pc st = Exited
  /\ submitted Examples.empty_db st = 1
  /\ count st = 1
  /\ last (stdout st) = Some "✗ Error: 503 unavailable".
Proof. vm_compute. repeat split; reflexivity. Qed.

(** C7, as the code has it. Ctrl+C ends the loop at the statement it
    meets: that statement and the rest of the iteration are not run. The
    handler prints the counter and nothing is written afterwards; a write
    is whole or absent. The count printed is the number of records
    submitted, except when the signal falls between the write and the
    increment of the counter: then it is one short. In particular a signal
    during the sleep reports the exact number. *)
Theorem C7_stop_signal
    (float_of_str : string -> option pyfloat)
    (data_dict : dict DataGenerator.DataFrame) (interval : Z)
    (s0 : db) (events : list event) :
  let st := push_data float_of_str data_dict interval s0 events in
  let st' := step float_of_str data_dict interval st SIGINT in
  at_pc st <> Exited ->
  at_pc st' = Exited
  /\ stdout st' = (stdout st ++ [(nl ++ "✓ Data stream stopped. Total samples sent: "
                                    ++ str_int (count st))%string])%list
  /\ store st' = store st
  /\ count st <= submitted s0 st' <= count st + 1
  /\ ((forall smp, at_pc st <> AtIncr smp) -> submitted s0 st' = count st)
  /\ (at_pc st = AtSleep -> submitted s0 st' = count st)
  /\ (forall smp, at_pc st = AtIncr smp -> submitted s0 st' = count st + 1)
  /\ forall more,
       fold_left (step float_of_str data_dict interval) more st' = st'.
Proof.
  intros st st' Hrun.
  assert (Hst' : st' = on_interrupt st).
  { unfold st', step. by destruct (at_pc st). }
  assert (Hc : counted s0 st) by (apply counted_run, counted_init).
  assert (Hsub : submitted s0 st' = submitted s0 st) by (by rewrite Hst').
  rewrite Hsub, Hst'. unfold counted in Hc.
  split; [done|]. split; [done|]. split; [done|]. split.
  { destruct (at_pc st); lia. }
  split.
  { intros Hnot. destruct (at_pc st) eqn:Hpc; try done. by destruct (Hnot smp). }
  split.
  { intros Hsleep. by rewrite Hsleep in Hc. }
  split.
  { intros smp Hincr. by rewrite Hincr in Hc. }
  intros more. by apply run_exited.
Qed.

Lemma C7_stop_signal_witness :
  let st := push_data Examples.no_float Examples.corpus 60 Examples.empty_db
              (removelast (Examples.iteration 1000000)) in
  let st' := step Examples.no_float Examples.corpus 60 st SIGINT in
  at_pc st = AtSleep
  /\ at_pc st' = Exited
  /\ stdout st' = (stdout st ++ [(nl ++ "✓ Data stream stopped. Total samples sent: "
                                    ++ str_int (count st))%string])%list
  /\ store st' = store st
  /\ submitted Examples.empty_db st' = count st
  /\ count st = 1.
Proof.
  intros st st'.
  assert (Hpc : at_pc st = AtSleep) by (vm_compute; reflexivity).
  assert (Hrun : at_pc st <> Exited) by (rewrite Hpc; discriminate).
  destruct (C7_stop_signal Examples.no_float Examples.corpus 60 Examples.empty_db
              (removelast (Examples.iteration 1000000)) Hrun)
    as (Hexit & Hout & Hstore & _ & _ & Hsleep & _).
  split; [exact Hpc|]. split; [exact Hexit|]. split; [exact Hout|].
  split; [exact Hstore|]. split; [exact (Hsleep Hpc)|].
  vm_compute. reflexivity.
Defined.

(** The claim as the specification words it fails: Ctrl+C just after the
    store has accepted the first record, before [count += 1]. One record is
    in the store and the count reported is 0. *)
Lemma C7_counterexample :
  let st := push_data Examples.no_float Examples.corpus 60 Examples.empty_db
              [Run (Examples.accept 1000000); Run (Examples.accept 1000000); SIGINT] in
  at_pc st = Exited
  /\ stdout st = [nl ++ "✓ Data stream stopped. Total samples sent: 0"]
  /\ submitted Examples.empty_db st = 1.
Proof. vm_compute. repeat split; reflexivity. Qed.

(** *** The distribution of the samples *)

Lemma scale_one {A} (m : Random.M A) : Random.scale 1%Qc m = m.
Proof.
  unfold Random.scale. induction m as [|[w o] m IH]; simpl; [done|].
  rewrite IH. f_equal. f_equal. ring.
Qed.

Lemma scale_scale {A} (v w : Qc) (m : Random.M A) :
  Random.scale v (Random.scale w m) = Random.scale (v * w)%Qc m.
Proof.
  unfold Random.scale. rewrite map_map. apply map_ext. intros [u o]. simpl.
  f_equal. ring.
Qed.

Lemma scale_map {A B} (v w : Qc) (g : A -> result B) (l : list A) :
  Random.scale v (map (fun x => (w, g x)) l) = map (fun x => ((v * w)%Qc, g x)) l.
Proof. unfold Random.scale. by rewrite map_map. Qed.

Lemma scale_flat_map {A B} (v : Qc) (f : A -> Random.M B) (l : list A) :
  Random.scale v (flat_map f l) = flat_map (fun x => Random.scale v (f x)) l.
Proof.
  unfold Random.scale. induction l as [|x l IH]; simpl; [done|].
  by rewrite map_app, IH.
Qed.

Lemma bind_lift_ok {A B} (a : A) (k : A -> Random.M B) :
  Random.bind (Random.lift (Ok a)) k = k a.
Proof. unfold Random.bind, Random.lift. simpl. by rewrite app_nil_r, scale_one. Qed.

Lemma bind_map_ok {A B C} (w : Qc) (g : A -> B) (l : list A) (k : B -> Random.M C) :
  Random.bind (map (fun x => (w, Ok (g x))) l) k
  = flat_map (fun x => Random.scale w (k (g x))) l.
Proof.
  unfold Random.bind. induction l as [|x l IH]; simpl; [done|]. by rewrite IH.
Qed.

Lemma flat_map_lookup_seq {A B} (h : option A -> list B) (pre l : list A) :
  flat_map (fun i => h ((pre ++ l)%list !! i)) (seq (length pre) (length l))
  = flat_map (fun x => h (Some x)) l.
Proof.
  revert pre. induction l as [|x l IH]; intros pre; simpl; [done|].
  rewrite list_lookup_middle by done. f_equal.
  specialize (IH (pre ++ [x])%list).
  rewrite length_app, <- app_assoc in IH. simpl in IH.
  by rewrite Nat.add_1_r in IH.
Qed.

Lemma flat_map_lookup {A B} (h : option A -> list B) (l : list A) :
  flat_map (fun i => h (l !! i)) (seq 0 (length l)) = flat_map (fun x => h (Some x)) l.
Proof. apply (flat_map_lookup_seq h [] l). Qed.

Lemma flat_map_fst {A B C} (f : A -> list C) (l : list (A * B)) :
  flat_map f (map fst l) = flat_map (fun p => f p.1) l.
Proof. induction l as [|p l IH]; simpl; [done|]. by rewrite IH. Qed.

Lemma flat_map_ext_elem {A B} (f g : A -> list B) (l : list A) :
  (forall x, x ∈ l -> f x = g x) -> flat_map f l = flat_map g l.
Proof.
  induction l as [|x l IH]; intros H; simpl; [done|].
  rewrite (H x) by left. rewrite IH; [done|]. intros y Hy. apply H. by right.
Qed.

Lemma flat_map_singleton {A B} (g : A -> B) (l : list A) :
  flat_map (fun x => [g x]) l = map g l.
Proof. induction l as [|x l IH]; simpl; [done|]. by rewrite IH. Qed.

(** [random.choice] gives each element of a non-empty list the weight
    [1 / len]. *)
Lemma choice_uniform (l : list string) :
  l <> [] ->
  Random.choice l
  = map (fun x => ((1 / Z2Qc (Z.of_nat (length l)))%Qc, Ok x)) l.
Proof.
  intros Hne. destruct l as [|x0 l0]; [done|]. unfold Random.choice.
  generalize (x0 :: l0). intros l. unfold Random.randbelow.
  rewrite (bind_map_ok _ (fun k => k)).
  rewrite (flat_map_lookup
             (fun o => Random.scale (1 / Z2Qc (Z.of_nat (length l)))%Qc
                         (Random.lift match o with
                                      | Some x => Ok x
                                      | None => Raise (IndexError "list index out of range")
                                      end)) l).
  simpl. rewrite flat_map_singleton. apply map_ext. intros x. f_equal. ring.
Qed.

(** [random.randint(a, b)] gives each integer of a non-empty range
    [a .. b] the weight [1 / (b - a + 1)]. *)
Lemma randint_uniform (a b : Z) :
  0 < b - a + 1 ->
  Random.randint a b
  = map (fun k => ((1 / Z2Qc (Z.of_nat (Z.to_nat (b - a + 1))))%Qc, Ok (a + Z.of_nat k)))
        (seq 0 (Z.to_nat (b - a + 1))).
Proof.
  intros Hpos. unfold Random.randint. rewrite decide_True by done.
  unfold Random.randbelow. rewrite (bind_map_ok _ (fun k => k)).
  unfold Random.ret. simpl. rewrite flat_map_singleton.
  apply map_ext. intros k. f_equal. ring.
Qed.

Section Distribution.
Variable float_of_str : string -> option pyfloat.

Lemma iloc_of_nat (df : DataGenerator.DataFrame) (k : nat) :
  iloc df (0 + Z.of_nat k)
  = match df !! k with
    | Some r => Ok r
    | None => Raise (IndexError "single positional indexer is out-of-bounds")
    end.
Proof.
  unfold iloc. cbv zeta.
  destruct (decide (0 + Z.of_nat k < 0)); [lia|].
  destruct (decide (0 <= 0 + Z.of_nat k)); [|lia].
  by replace (Z.to_nat (0 + Z.of_nat k)) with k by lia.
Qed.

Lemma draw_row_uniform (csv_file : string) (df : DataGenerator.DataFrame) :
  df <> [] ->
  draw_row float_of_str csv_file df
  = map (fun r => ((1 / Z2Qc (Z.of_nat (length df)))%Qc,
                   sample_of_row float_of_str csv_file r)) df.
Proof.
  intros Hne. unfold draw_row, len, mbind, random_bind.
  assert (Hpos : 0 < Z.of_nat (length df) - 1 - 0 + 1)
    by (destruct df; [done|simpl; lia]).
  rewrite randint_uniform by done.
  replace (Z.to_nat (Z.of_nat (length df) - 1 - 0 + 1)) with (length df) by lia.
  rewrite (bind_map_ok _ (fun k => 0 + Z.of_nat k)).
  transitivity
    (flat_map (fun k =>
       Random.scale (1 / Z2Qc (Z.of_nat (length df)))%Qc
         (match df !! k with
          | Some r => [(1%Qc, sample_of_row float_of_str csv_file r)]
          | None => [(1%Qc, Raise (IndexError "single positional indexer is out-of-bounds"))]
          end)) (seq 0 (length df))).
  { apply flat_map_ext. intros k. f_equal. rewrite iloc_of_nat.
    destruct (df !! k); [by rewrite bind_lift_ok|done]. }
  etransitivity.
  { exact (flat_map_lookup
             (fun o => Random.scale (1 / Z2Qc (Z.of_nat (length df)))%Qc
                (match o with
                 | Some r => [(1%Qc, sample_of_row float_of_str csv_file r)]
                 | None => [(1%Qc, Raise (IndexError "single positional indexer is out-of-bounds"))]
                 end)) df). }
  simpl. rewrite flat_map_singleton. apply map_ext. intros r. f_equal. ring.
Qed.

Lemma get_random_sample_uniform (d : dict DataGenerator.DataFrame) :
  d <> [] -> NoDup (keys d) -> Forall (fun p => p.2 <> []) d ->
  get_random_sample float_of_str d = uniform_rows float_of_str d.
Proof.
  intros Hne Hnd Hrows. unfold get_random_sample, mbind, random_bind.
  rewrite choice_uniform by (destruct d; done).
  rewrite (bind_map_ok _ (fun k => k)).
  unfold keys. rewrite length_map.
  unfold uniform_rows. rewrite flat_map_fst.
  apply flat_map_ext_elem. intros [name df] Hin. cbn [fst snd].
  rewrite (getitem_NoDup d name df Hnd Hin), bind_lift_ok.
  change (Random.bind (Random.randint 0 (len df - 1)) _) with (draw_row float_of_str name df).
  rewrite draw_row_uniform.
  - by rewrite scale_map.
  - rewrite Forall_forall in Hrows. apply (Hrows (name, df) Hin).
Qed.

End Distribution.

(** *** Probabilities *)

Lemma Z2Qc_add (a b : Z) : Z2Qc (a + b) = (Z2Qc a + Z2Qc b)%Qc.
Proof.
  unfold Z2Qc, Qcplus. apply Q2Qc_eq_iff. cbn [this Q2Qc].
  rewrite !Qred_correct, inject_Z_plus. reflexivity.
Qed.

Lemma Z2Qc_nonzero (z : Z) : z <> 0 -> Z2Qc z <> 0%Qc.
Proof.
  intros Hz H. apply Hz. unfold Z2Qc in H. apply Q2Qc_eq_iff in H.
  by apply (inject_Z_injective z 0).
Qed.

Lemma prob_app {A} (P : result A -> bool) (m1 m2 : Random.M A) :
  Random.prob P (m1 ++ m2)%list = (Random.prob P m1 + Random.prob P m2)%Qc.
Proof.
  unfold Random.prob. induction m1 as [|o m1 IH]; simpl; [ring|].
  rewrite IH. destruct (P o.2); ring.
Qed.

Section Marginal.
Variable float_of_str : string -> option pyfloat.
Variable weight : string * DataGenerator.DataFrame -> Qc.

Let block (p : string * DataGenerator.DataFrame) : Random.M sample :=
  map (fun r => (weight p, sample_of_row float_of_str p.1 r)) p.2.

Lemma from_file_sample (name name' : string) (r : row) :
  from_file name (sample_of_row float_of_str name' r)
  = is_ok (sample_of_row float_of_str name' r) && bool_decide (name' = name).
Proof.
  destruct (sample_of_row float_of_str name' r) as [s|e] eqn:Hs; simpl; [|done].
  destruct (sample_of_row_lookup _ _ _ _ Hs) as (_ & Hsrc & _). rewrite Hsrc.
  apply bool_decide_ext. split; [by intros [= ->]|by intros ->].
Qed.

Lemma prob_block_other (name : string) (p : string * DataGenerator.DataFrame) :
  p.1 <> name -> Random.prob (from_file name) (block p) = 0%Qc.
Proof.
  intros Hne. unfold block, Random.prob. induction p.2 as [|r df IH]; simpl; [done|].
  rewrite from_file_sample, (bool_decide_eq_false_2 _ Hne), andb_false_r. exact IH.
Qed.

Lemma prob_block_same (p : string * DataGenerator.DataFrame) :
  Forall (fun r => is_ok (sample_of_row float_of_str p.1 r) = true) p.2 ->
  Random.prob (from_file p.1) (block p)
  = (Z2Qc (Z.of_nat (length p.2)) * weight p)%Qc.
Proof.
  unfold block, Random.prob. generalize (weight p) as w. intros w.
  induction 1 as [|r df Hr _ IH]; simpl length; simpl foldr.
  - change (Z2Qc (Z.of_nat 0)) with 0%Qc. ring.
  - rewrite from_file_sample, Hr, bool_decide_eq_true_2 by done. simpl.
    rewrite IH. rewrite Nat2Z.inj_succ, <- Z.add_1_l, Z2Qc_add.
    change (Z2Qc 1) with 1%Qc. ring.
Qed.

Lemma prob_rows_absent (name : string) (d : dict DataGenerator.DataFrame) :
  name ∉ keys d -> Random.prob (from_file name) (flat_map block d) = 0%Qc.
Proof.
  induction d as [|p d IH]; simpl; [done|]. intros Hnot.
  rewrite prob_app, prob_block_other, IH by set_solver. ring.
Qed.

Lemma prob_rows (name : string) (df : DataGenerator.DataFrame)
    (d : dict DataGenerator.DataFrame) :
  NoDup (keys d) -> (name, df) ∈ d ->
  Forall (fun r => is_ok (sample_of_row float_of_str name r) = true) df ->
  Random.prob (from_file name) (flat_map block d)
  = (Z2Qc (Z.of_nat (length df)) * weight (name, df))%Qc.
Proof.
  intros Hnd Hin Hok. induction d as [|p d IH]; [by apply elem_of_nil in Hin|].
  unfold keys in Hnd. cbn [map] in Hnd. apply NoDup_cons in Hnd as [Hp Hnd].
  cbn [flat_map]. rewrite prob_app.
  apply elem_of_cons in Hin as [<-|Hin].
  - pose proof (prob_block_same (name, df) Hok) as Hb. cbn [fst snd] in Hb.
    rewrite Hb, prob_rows_absent by done. ring.
  - rewrite prob_block_other, IH; [ring|done|done|].
    intros <-. apply Hp. apply list_elem_of_fmap. by exists (p.1, df).
Qed.

End Marginal.

Lemma sample_of_row_provenance (float_of_str : string -> option pyfloat)
    (name : string) (r : row) (s : sample) :
  sample_of_row float_of_str name r = Ok s ->
  s !! "source_file" = Some (WStr name)
  /\ (forall c f, s !! c = Some (WFloat f) ->
        c ∈ FEATURE_COLS /\ exists v, r !! c = Some v /\ py_float float_of_str v = Ok f)
  /\ (forall c v, c ∈ FEATURE_COLS -> r !! c = Some v ->
        exists f, py_float float_of_str v = Ok f /\ s !! c = Some (WFloat f)).
Proof.
  intros Hs. destruct (sample_of_row_lookup _ _ _ _ Hs) as (Ht & Hsrc & Hk).
  split; [done|]. split.
  - intros c f Hc.
    assert (H1 : c <> "timestamp") by (intros ->; congruence).
    assert (H2 : c <> "source_file") by (intros ->; congruence).
    rewrite (Hk c H1 H2) in Hc. case_decide as Hin; [|done]. split; [done|].
    destruct (r !! c) as [v|]; [|done]. exists v. split; [done|].
    simpl in Hc. unfold feature_of in Hc.
    destruct (py_float float_of_str v); congruence.
  - intros c v Hin Hv.
    assert (H1 : c <> "timestamp") by (intros ->; revert Hin; compute_done).
    assert (H2 : c <> "source_file") by (intros ->; revert Hin; compute_done).
    unfold sample_of_row in Hs.
    destruct (extract_features float_of_str FEATURE_COLS r) as [m|e] eqn:Hm; [|done].
    destruct (extract_features_converts _ _ _ _ Hm c v Hin Hv) as [x Hx].
    unfold feature_of in Hx. destruct (py_float float_of_str v) as [f|] eqn:Hf; [|done].
    exists f. split; [done|]. rewrite (Hk c H1 H2), decide_True, Hv by done.
    simpl. unfold feature_of. by rewrite Hf.
Qed.

(** C6, as the code has it. Take a non-empty [data_dict] whose tables all
    have at least one row. [get_random_sample] has exactly one outcome per
    table and row, with probability (1 / number of tables) times
    (1 / number of rows of the table): the table is drawn uniformly, then a
    row of it uniformly. When the rows of a table convert, the samples that
    name it have total probability 1 / number of tables. A sample returned
    names in [source_file] the table it was drawn from, and its features are
    the float values of those of the eight channels that are columns of the
    drawn row of that table, all of them and nothing else: a channel the
    row lacks is left out, so there may be fewer than eight. *)
Theorem C6_uniform_row_provenance
    (float_of_str : string -> option pyfloat) (d : dict DataGenerator.DataFrame) :
  d <> [] -> NoDup (keys d) -> Forall (fun p => p.2 <> []) d ->
  get_random_sample float_of_str d = uniform_rows float_of_str d
  /\ (forall name df, (name, df) ∈ d ->
        Forall (fun r => is_ok (sample_of_row float_of_str name r) = true) df ->
        Random.prob (from_file name) (get_random_sample float_of_str d)
        = (1 / Z2Qc (Z.of_nat (length d)))%Qc)
  /\ (forall w s, In (w, Ok s) (get_random_sample float_of_str d) ->
        exists name df i r,
          getitem d name = Ok df /\ df !! i = Some r
          /\ s !! "source_file" = Some (WStr name)
          /\ (forall c f, s !! c = Some (WFloat f) ->
                c ∈ FEATURE_COLS
                /\ exists v, r !! c = Some v /\ py_float float_of_str v = Ok f)
          /\ (forall c v, c ∈ FEATURE_COLS -> r !! c = Some v ->
                exists f, py_float float_of_str v = Ok f /\ s !! c = Some (WFloat f))).
Proof.
  intros Hne Hnd Hrows.
  pose proof (get_random_sample_uniform float_of_str d Hne Hnd Hrows) as Huni.
  split; [done|]. split.
  - intros name df Hin Hok. rewrite Huni. unfold uniform_rows.
    etransitivity.
    { exact (prob_rows float_of_str
               (fun p => (1 / Z2Qc (Z.of_nat (length d))
                          * (1 / Z2Qc (Z.of_nat (length p.2))))%Qc)
               name df d Hnd Hin Hok). }
    cbn [snd].
    assert (Hdf : Z2Qc (Z.of_nat (length df)) <> 0%Qc).
    { apply Z2Qc_nonzero. rewrite Forall_forall in Hrows.
      specialize (Hrows (name, df) Hin). destruct df; [done|simpl; lia]. }
    assert (Hd : Z2Qc (Z.of_nat (length d)) <> 0%Qc).
    { apply Z2Qc_nonzero. destruct d; [done|simpl; lia]. }
    field. done.
  - intros w s Hin.
    destruct (get_random_sample_support _ _ _ _ Hin) as (name & df & i & r & Hg & Hr & Hs).
    exists name, df, i, r. split; [done|]. split; [done|].
    by apply sample_of_row_provenance.
Qed.

Lemma C6_uniform_row_provenance_witness :
  Examples.corpus <> []
  /\ NoDup (keys Examples.corpus)
  /\ Forall (fun p => p.2 <> []) Examples.corpus
  /\ get_random_sample Examples.no_float Examples.corpus
     = uniform_rows Examples.no_float Examples.corpus
  /\ Random.prob (from_file "NORMAL_OP.csv")
       (get_random_sample Examples.no_float Examples.corpus)
     = (1 / Z2Qc 2)%Qc.
Proof.
  assert (Hne : Examples.corpus <> []) by discriminate.
  assert (Hnd : NoDup (keys Examples.corpus)) by compute_done.
  assert (Hrows : Forall (fun p => p.2 <> []) Examples.corpus)
    by (repeat constructor; discriminate).
  destruct (C6_uniform_row_provenance Examples.no_float Examples.corpus Hne Hnd Hrows)
    as (Huni & Hprob & _).
  split; [exact Hne|]. split; [exact Hnd|]. split; [exact Hrows|].
  split; [exact Huni|].
  apply (Hprob "NORMAL_OP.csv" [Examples.full_row; Examples.full_row]).
  - left.
  - repeat constructor.
Defined.

(** The claim as the specification words it fails: the only table of this
    non-empty [data_dict] has three of the eight channel columns, and the
    sample drawn has three features, not eight. *)
Lemma C6_counterexample :
  Examples.short_corpus <> []
  /\ match Random.pick 0 (get_random_sample Examples.no_float Examples.short_corpus) with
     | Ok s =>
         size (dom s ∖ ({[ "source_file"; "timestamp" ]} : gset string)) = 3%nat
         /\ s !! "IDC" = None /\ s !! "T1" = None /\ s !! "T2" = None
         /\ s !! "T3" = None /\ s !! "VD" = None
     | Raise _ => False
     end.
Proof. split; [discriminate|]. vm_compute. repeat split; reflexivity. Qed.

(** * More of the two scripts *)

(** *** load_csv_files *)

Lemma setitem_fresh {V} (d : dict V) (k : string) (v : V) :
  k ∉ keys d -> setitem d k v = (d ++ [(k, v)])%list.
Proof.
  induction d as [|[k' v'] d IH]; cbn [setitem keys map fst]; [done|].
  intros Hk. rewrite decide_False by set_solver.
  cbn [app]. f_equal. apply IH. set_solver.
Qed.

Lemma keys_readable (read_csv : string -> result DataGenerator.DataFrame)
    (files : list string) (f : string) :
  f ∈ keys (readable read_csv files) -> f ∈ files.
Proof.
  unfold keys, readable. intros ([k df] & -> & Hin)%list_elem_of_fmap.
  apply list_elem_of_omap in Hin as (f' & Hf' & Hread).
  destruct (read_csv _); [|done]. by injection Hread as <- _.
Qed.

Lemma load_from_readable (read_csv : string -> result DataGenerator.DataFrame)
    (files : list string) (acc : dict DataGenerator.DataFrame) (out : list string) :
  NoDup files ->
  (forall f, f ∈ files -> f ∉ keys acc) ->
  (forall f, f ∈ files ->
     read_csv (path_join ASSETS_DIR f) <> Raise KeyboardInterrupt) ->
  exists lines,
    load_from read_csv files acc out
    = ((out ++ lines)%list, Ok (acc ++ readable read_csv files)%list)
    /\ length lines = length files.
Proof.
  revert acc out. induction files as [|f files IH]; intros acc out Hnd Hfresh Hsig.
  - exists []. simpl. by rewrite !app_nil_r.
  - apply NoDup_cons in Hnd as [Hf Hnd]. cbn [load_from readable omap list_omap].
    destruct (read_csv (path_join ASSETS_DIR f)) as [df|e] eqn:Hread.
    + rewrite setitem_fresh by (apply Hfresh; left).
      destruct (IH (acc ++ [(f, df)])%list
                  (out ++ [("Loaded " ++ f ++ ": " ++ str_int (len df) ++ " rows")%string])%list)
        as (lines & -> & Hlen); [done| | |].
      * intros f' Hf'. unfold keys. rewrite fmap_app.
        intros [?|?%list_elem_of_singleton]%elem_of_app.
        -- by apply (Hfresh f'); [right|].
        -- simpl in *. congruence.
      * intros f' Hf'. apply Hsig. by right.
      * eexists. rewrite <- !app_assoc. split; [reflexivity|]. simpl. by rewrite Hlen.
    + assert (He : is_Exception e = true).
      { destruct e; try done. exfalso. by apply (Hsig f); [left|]. }
      rewrite He.
      destruct (IH acc (out ++ [("Error loading " ++ f ++ ": " ++ str_exn e)%string])%list)
        as (lines & -> & Hlen); [done| | |].
      * intros f' Hf'. apply Hfresh. by right.
      * intros f' Hf'. apply Hsig. by right.
      * eexists. rewrite <- !app_assoc. split; [reflexivity|]. simpl. by rewrite Hlen.
Qed.

(** X1. Unless Ctrl+C stops the reading, [load_csv_files] returns the dict
    of exactly the files of [CSV_FILES] that could be read, in the order of
    the list, each with the table read from it: a file that fails is left
    out and the others are still loaded. It prints one line per file. *)
Theorem load_csv_files_keeps_the_readable
    (read_csv : string -> result DataGenerator.DataFrame) :
  (forall f, f ∈ CSV_FILES ->
     read_csv (path_join ASSETS_DIR f) <> Raise KeyboardInterrupt) ->
  exists lines,
    load_csv_files read_csv = (lines, Ok (readable read_csv CSV_FILES))
    /\ length lines = 9%nat
    /\ (forall f df, getitem (readable read_csv CSV_FILES) f = Ok df <->
          f ∈ CSV_FILES /\ read_csv (path_join ASSETS_DIR f) = Ok df).
Proof.
  intros Hsig.
  destruct (load_from_readable read_csv CSV_FILES [] []) as (lines & Hload & Hlen);
    [compute_done | set_solver | done |].
  exists lines. split; [exact Hload|]. split; [exact Hlen|].
  assert (Hnd : NoDup (keys (readable read_csv CSV_FILES))).
  { apply (load_csv_files_NoDup read_csv). unfold load_csv_files. by rewrite Hload. }
  intros f df. split.
  - intros Hget. apply getitem_elem_of in Hget.
    apply list_elem_of_omap in Hget as (f' & Hf' & Hread).
    destruct (read_csv (path_join ASSETS_DIR f')) eqn:Hr; [|done].
    injection Hread as <- <-. done.
  - intros [Hf Hread]. apply getitem_NoDup; [done|].
    apply list_elem_of_omap. exists f. split; [done|]. by rewrite Hread.
Qed.

Lemma load_csv_files_keeps_the_readable_witness :
  exists lines,
    load_csv_files Examples.one_file = (lines, Ok (readable Examples.one_file CSV_FILES))
    /\ length lines = 9%nat
    /\ (forall f df, getitem (readable Examples.one_file CSV_FILES) f = Ok df <->
          f ∈ CSV_FILES /\ Examples.one_file (path_join ASSETS_DIR f) = Ok df).
Proof.
  apply (load_csv_files_keeps_the_readable Examples.one_file).
  intros f _. unfold Examples.one_file. by case_decide.
Defined.

(** *** get_random_sample: when it raises *)

Section Raising.
Variable float_of_str : string -> option pyfloat.

(** The outcomes table by table, whatever the tables hold. *)
Lemma get_random_sample_by_table (d : dict DataGenerator.DataFrame) :
  d <> [] -> NoDup (keys d) ->
  get_random_sample float_of_str d
  = flat_map (fun p => Random.scale (1 / Z2Qc (Z.of_nat (length d)))%Qc
                         (draw_row float_of_str p.1 p.2)) d.
Proof.
  intros Hne Hnd. unfold get_random_sample, mbind, random_bind.
  rewrite choice_uniform by (destruct d; done).
  rewrite (bind_map_ok _ (fun k => k)).
  unfold keys. rewrite length_map, flat_map_fst.
  apply flat_map_ext_elem. intros [name df] Hin. cbn [fst snd].
  by rewrite (getitem_NoDup d name df Hnd Hin), bind_lift_ok.
Qed.

Lemma sound_corpus_uniform (d : dict DataGenerator.DataFrame) :
  sound_corpus float_of_str d ->
  get_random_sample float_of_str d = uniform_rows float_of_str d.
Proof.
  intros (Hne & Hnd & Hrows). apply get_random_sample_uniform; try done.
  eapply Forall_impl; [exact Hrows|]. by intros p [? _].
Qed.

Lemma printable_row_sample (name : string) (r : row) :
  printable_row float_of_str r ->
  exists s, sample_of_row float_of_str name r = Ok s
    /\ s !! "source_file" = Some (WStr name)
    /\ (exists f, s !! "Ia" = Some (WFloat f))
    /\ (exists f, s !! "Ib" = Some (WFloat f))
    /\ (exists f, s !! "VDC" = Some (WFloat f)).
Proof.
  intros (Hnum & [va Ha] & [vb Hb] & [vc Hc]).
  assert (Hok : is_ok (sample_of_row float_of_str name r) = true).
  { unfold sample_of_row.
    pose proof (extract_features_ok float_of_str FEATURE_COLS r Hnum) as Hok.
    by destruct (extract_features float_of_str FEATURE_COLS r). }
  destruct (sample_of_row float_of_str name r) as [s|] eqn:Hs; [|done].
  exists s. split; [done|].
  destruct (sample_of_row_provenance _ _ _ _ Hs) as (Hsrc & _ & Hall).
  split; [done|].
  assert (Hia : "Ia" ∈ FEATURE_COLS) by compute_done.
  assert (Hib : "Ib" ∈ FEATURE_COLS) by compute_done.
  assert (Hvdc : "VDC" ∈ FEATURE_COLS) by compute_done.
  destruct (Hall _ _ Hia Ha) as (fa & _ & ?).
  destruct (Hall _ _ Hib Hb) as (fb & _ & ?).
  destruct (Hall _ _ Hvdc Hc) as (fc & _ & ?).
  repeat split; eauto.
Qed.

Lemma sound_corpus_outcome (d : dict DataGenerator.DataFrame) (w : Qc)
    (o : result sample) :
  sound_corpus float_of_str d ->
  In (w, o) (get_random_sample float_of_str d) ->
  exists name df r, (name, df) ∈ d /\ r ∈ df /\ printable_row float_of_str r
    /\ o = sample_of_row float_of_str name r.
Proof.
  intros Hsound. rewrite (sound_corpus_uniform d Hsound).
  destruct Hsound as (_ & _ & Hrows). unfold uniform_rows.
  intros ([name df] & Hp & Hin)%in_flat_map. cbn [fst snd] in Hin.
  apply in_map_iff in Hin as (r & [= _ <-] & Hr).
  apply list_elem_of_In in Hp, Hr.
  rewrite Forall_forall in Hrows. destruct (Hrows _ Hp) as [_ Hprint].
  rewrite Forall_forall in Hprint. exists name, df, r. eauto.
Qed.

End Raising.

(** X2. On a corpus with at least one table, no table without rows, and
    numbers in the channel cells, [get_random_sample] never raises: every
    outcome is a sample, and it has the fields [source_file], [Ia], [Ib] and
    [VDC] that [push_data] prints. *)
Theorem get_random_sample_never_raises
    (float_of_str : string -> option pyfloat) (d : dict DataGenerator.DataFrame)
    (w : Qc) (o : result sample) :
  sound_corpus float_of_str d ->
  In (w, o) (get_random_sample float_of_str d) ->
  exists s name, o = Ok s
    /\ s !! "source_file" = Some (WStr name) /\ name ∈ keys d
    /\ is_Some (s !! "Ia") /\ is_Some (s !! "Ib") /\ is_Some (s !! "VDC").
Proof.
  intros Hsound Hin.
  destruct (sound_corpus_outcome _ _ _ _ Hsound Hin) as (name & df & r & Hp & _ & Hr & ->).
  destruct (printable_row_sample float_of_str name r Hr)
    as (s & -> & Hsrc & [fa Ha] & [fb Hb] & [fc Hc]).
  exists s, name. repeat split; eauto.
  unfold keys. apply list_elem_of_fmap. by exists (name, df).
Qed.

Lemma sound_example_corpus : sound_corpus Examples.no_float Examples.corpus.
Proof.
  split; [discriminate|]. split; [compute_done|].
  repeat constructor; try discriminate;
    try (eexists; vm_compute; reflexivity).
  all: intros c v Hc Hv; unfold FEATURE_COLS in Hc;
    repeat (apply elem_of_cons in Hc as [->|Hc]);
    try (by apply elem_of_nil in Hc);
    vm_compute in Hv; by injection Hv as <-.
Qed.

Lemma get_random_sample_never_raises_witness :
  exists s name, Ok Examples.full_sample = Ok s
    /\ s !! "source_file" = Some (WStr name) /\ name ∈ keys Examples.corpus
    /\ is_Some (s !! "Ia") /\ is_Some (s !! "Ib") /\ is_Some (s !! "VDC").
Proof.
  apply (get_random_sample_never_raises Examples.no_float Examples.corpus
           (Examples.q 1 4) (Ok Examples.full_sample) sound_example_corpus).
  vm_compute. left. reflexivity.
Defined.

(** X3. Where it does raise. With no table loaded the choice of a file
    raises IndexError, always. A loaded table that has no row makes the
    choice of a row raise ValueError, with the probability of drawing that
    table. *)
Theorem get_random_sample_raises_without_rows
    (float_of_str : string -> option pyfloat) (d : dict DataGenerator.DataFrame)
    (name : string) :
  NoDup (keys d) -> (name, []) ∈ d ->
  get_random_sample float_of_str []
  = [(1%Qc, Raise (IndexError "Cannot choose from an empty sequence"))]
  /\ In ((1 / Z2Qc (Z.of_nat (length d)))%Qc,
         Raise (ValueError "empty range for randrange()"))
        (get_random_sample float_of_str d).
Proof.
  intros Hnd Hin. split; [reflexivity|].
  rewrite get_random_sample_by_table by (try done; by intros ->; apply elem_of_nil in Hin).
  apply in_flat_map. exists (name, []). split; [by apply list_elem_of_In|].
  cbn [fst snd].
  change (draw_row float_of_str name [])
    with [(1%Qc, @Raise sample (ValueError "empty range for randrange()"))].
  unfold Random.scale. cbn [map fst snd]. left. f_equal. ring.
Qed.

Lemma get_random_sample_raises_without_rows_witness :
  get_random_sample Examples.no_float []
  = [(1%Qc, Raise (IndexError "Cannot choose from an empty sequence"))]
  /\ In ((1 / Z2Qc (Z.of_nat 2))%Qc,
         Raise (ValueError "empty range for randrange()"))
        (get_random_sample Examples.no_float
           [("NORMAL_OP.csv", [Examples.full_row]); ("HB1_OVER_TEMP.csv", [])]).
Proof.
  apply (get_random_sample_raises_without_rows Examples.no_float
           [("NORMAL_OP.csv", [Examples.full_row]); ("HB1_OVER_TEMP.csv", [])]
           "HB1_OVER_TEMP.csv").
  - compute_done.
  - right. left.
Defined.

(** *** push_data: what gets into the store *)

Section Written.
Variable float_of_str : string -> option pyfloat.
Variable data_dict : dict DataGenerator.DataFrame.
Variable interval : Z.

Let step := step float_of_str data_dict interval.
Let drawn (smp : sample) : Prop :=
  exists w, In (w, Ok smp) (get_random_sample float_of_str data_dict).

Lemma pick_drawn (n : nat) (smp : sample) :
  Random.pick n (get_random_sample float_of_str data_dict) = Ok smp -> drawn smp.
Proof.
  unfold Random.pick, Random.support.
  destruct (_ !! _) as [r|] eqn:Hr; [|done]. intros ->.
  apply list_elem_of_lookup_2, list_elem_of_fmap in Hr as ([w o] & Ho & Hin).
  simpl in Ho. subst o. exists w. by apply list_elem_of_In.
Qed.

Lemma raise_carries_nothing (e : exn) (st : state) :
  carried (at_pc (raise e st)) = None.
Proof. unfold raise. by destruct (is_Exception e). Qed.

Lemma step_carried (st : state) (ev : event) :
  (forall smp, carried (at_pc st) = Some smp -> drawn smp) ->
  forall smp, carried (at_pc (step st ev)) = Some smp -> drawn smp.
Proof.
  intros Hst smp. unfold step, DataGenerator.step, exec.
  destruct (at_pc st) eqn:Hpc, ev as [|w]; try done;
    repeat match goal with
           | |- context [match ?x with Ok _ => _ | Raise _ => _ end] => destruct x eqn:?
           end;
    rewrite ?raise_carries_nothing; simpl; try done;
    try (intros [= <-]; apply Hst; by rewrite ?Hpc).
  all: try (intros [= <-]; by eapply pick_drawn).
  all: by rewrite Hpc.
Qed.

Lemma step_appends (st : state) (ev : event) :
  (forall smp, carried (at_pc st) = Some smp -> drawn smp) ->
  store (step st ev) = store st
  \/ exists smp t, drawn smp
       /\ store (step st ev) = add "raw_readings" smp t (store st).
Proof.
  intros Hst. destruct (step_store float_of_str data_dict interval st ev)
    as [?|(smp & t & Hpc & _ & ?)]; [by left|].
  right. exists smp, t. split; [|done]. apply Hst. by rewrite Hpc.
Qed.

Lemma run_appends (events : list event) (st : state) :
  (forall smp, carried (at_pc st) = Some smp -> drawn smp) ->
  exists added,
    docs_of (store (fold_left step events st)) "raw_readings"
    = (docs_of (store st) "raw_readings" ++ added)%list
    /\ Forall (fun doc => exists smp t, drawn smp /\ doc = commit_value t <$> smp) added.
Proof.
  revert st. induction events as [|ev events IH]; intros st Hst; simpl.
  - exists []. by rewrite app_nil_r.
  - destruct (IH (step st ev)) as (added & -> & Hadded); [by apply step_carried|].
    destruct (step_appends st ev Hst) as [->|(smp & t & Hsmp & ->)]; [by eexists|].
    rewrite docs_of_add_eq, <- app_assoc. eexists. split; [reflexivity|].
    constructor; [eauto|done].
Qed.

Lemma drawn_raw_reading (smp : sample) (t : Z) :
  drawn smp -> raw_reading data_dict (commit_value t <$> smp).
Proof.
  intros [w Hin].
  destruct (get_random_sample_support _ _ _ _ Hin) as (name & df & i & r & Hg & _ & Hs).
  destruct (sample_of_row_lookup _ _ _ _ Hs) as (Ht & Hsrc & Hk).
  split; [|split].
  - exists t. by rewrite lookup_fmap, Ht.
  - exists name. rewrite lookup_fmap, Hsrc. split; [done|].
    apply getitem_elem_of in Hg. unfold keys. apply list_elem_of_fmap. by exists (name, df).
  - intros k v Hv H1 H2. rewrite lookup_fmap, (Hk k H1 H2) in Hv.
    case_decide as Hin'; [|done]. split; [done|].
    destruct (r !! k) as [c|]; [|done]. simpl in Hv. unfold feature_of in Hv.
    destruct (py_float float_of_str c); [|done]. simpl in Hv. injection Hv as <-. eauto.
Qed.

End Written.

(** X4. Whatever the events, the documents a run of [push_data] leaves in
    [raw_readings] beyond those already there are whole samples: each has a
    [timestamp] set by the server, a [source_file] that is a key of
    [data_dict], and for the rest only readings of the eight channels. None
    has a [confidence], a [fault_label] or a [location]. *)
Theorem push_data_writes_raw_readings_only
    (float_of_str : string -> option pyfloat)
    (data_dict : dict DataGenerator.DataFrame) (interval : Z)
    (s0 : db) (events : list event) :
  exists added,
    docs_of (store (push_data float_of_str data_dict interval s0 events)) "raw_readings"
    = (docs_of s0 "raw_readings" ++ added)%list
    /\ Forall (raw_reading data_dict) added
    /\ Forall (fun doc : document =>
                 doc !! "confidence" = None /\ doc !! "fault_label" = None
                 /\ doc !! "location" = None) added.
Proof.
  destruct (run_appends float_of_str data_dict interval events (init s0))
    as (added & Hdocs & Hadded); [done|].
  exists added. split; [exact Hdocs|].
  assert (Hraw : Forall (raw_reading data_dict) added).
  { eapply Forall_impl; [exact Hadded|]. intros doc (smp & t & Hsmp & ->).
    by eapply drawn_raw_reading. }
  split; [exact Hraw|].
  eapply Forall_impl; [exact Hraw|]. intros doc (_ & _ & Hrest).
  assert (Hnone : forall k, k <> "timestamp" -> k <> "source_file" ->
                            k ∉ FEATURE_COLS -> doc !! k = None).
  { intros k H1 H2 H3. destruct (doc !! k) as [v|] eqn:Hv; [|done].
    by destruct (Hrest k v Hv H1 H2). }
  repeat split; apply Hnone; try done; compute_done.
Qed.

(** *** push_data: the sample that cannot be printed *)

Lemma line_features_missing (smp : sample) :
  (forall k v, smp !! k = Some v -> k ∈ FEATURE_COLS -> exists f, v = WFloat f) ->
  smp !! "Ia" = None \/ smp !! "Ib" = None \/ smp !! "VDC" = None ->
  exists k, k ∈ ["Ia"; "Ib"; "VDC"] /\ smp !! k = None
    /\ line_features smp = Raise (KeyError k).
Proof.
  intros Hfloat Hmiss. unfold line_features, fmt_2f.
  assert (Hcase : forall k, k ∈ FEATURE_COLS ->
            smp !! k = None \/ exists f, smp !! k = Some (WFloat f)).
  { intros k Hk. destruct (smp !! k) as [v|] eqn:Hv; [|by left].
    right. destruct (Hfloat k v Hv Hk) as [f ->]. eauto. }
  destruct (Hcase "Ia") as [Ha|[fa Ha]]; [compute_done| |].
  { exists "Ia". rewrite Ha. split; [set_solver|split; done]. }
  destruct (Hcase "Ib") as [Hb|[fb Hb]]; [compute_done| |].
  { exists "Ib". rewrite Ha, Hb. split; [set_solver|split; done]. }
  destruct (Hcase "VDC") as [Hc|[fc Hc]]; [compute_done| |].
  { exists "VDC". rewrite Ha, Hb, Hc. split; [set_solver|split; done]. }
  destruct Hmiss as [?|[?|?]]; congruence.
Qed.

(** The statements of the loop one by one. *)
Lemma step_add_ok (float_of_str : string -> option pyfloat)
    (data_dict : dict DataGenerator.DataFrame) (interval : Z)
    (st : state) (smp : sample) (w : world) (t : Z) :
  at_pc st = AtAdd smp -> store_reply w = Ok t ->
  step float_of_str data_dict interval st (Run w)
  = {| at_pc := AtIncr smp; count := count st;
       store := add "raw_readings" smp t (store st);
       stdout := stdout st; slept := slept st |}.
Proof. intros Hpc Hreply. unfold step, exec. by rewrite Hpc, Hreply. Qed.

Lemma step_incr (float_of_str : string -> option pyfloat)
    (data_dict : dict DataGenerator.DataFrame) (interval : Z)
    (smp : sample) (w : world) (n : Z) (s : db) (out : list string) (sl : Z) :
  step float_of_str data_dict interval
    {| at_pc := AtIncr smp; count := n; store := s; stdout := out; slept := sl |} (Run w)
  = {| at_pc := AtPrintPushed smp; count := n + 1; store := s;
       stdout := out; slept := sl |}.
Proof. reflexivity. Qed.

Lemma step_print_pushed (float_of_str : string -> option pyfloat)
    (data_dict : dict DataGenerator.DataFrame) (interval : Z)
    (smp : sample) (w : world) (n : Z) (s : db) (out : list string) (sl : Z)
    (line : string) :
  line_pushed (clock w) n smp = Ok line ->
  step float_of_str data_dict interval
    {| at_pc := AtPrintPushed smp; count := n; store := s; stdout := out; slept := sl |}
    (Run w)
  = {| at_pc := AtPrintFeatures smp; count := n; store := s;
       stdout := (out ++ [line])%list; slept := sl |}.
Proof. intros Hline. unfold step, exec. cbn [at_pc count]. by rewrite Hline. Qed.

Lemma step_print_features_raises (float_of_str : string -> option pyfloat)
    (data_dict : dict DataGenerator.DataFrame) (interval : Z)
    (smp : sample) (w : world) (n : Z) (s : db) (out : list string) (sl : Z)
    (e : exn) :
  line_features smp = Raise e ->
  step float_of_str data_dict interval
    {| at_pc := AtPrintFeatures smp; count := n; store := s; stdout := out; slept := sl |}
    (Run w)
  = raise e {| at_pc := AtPrintFeatures smp; count := n; store := s;
               stdout := out; slept := sl |}.
Proof. intros Hline. unfold step, exec. cbn [at_pc]. by rewrite Hline. Qed.


